(** * just-task profiler: a shallow embedding of [packages/just-task/src/profiler.ts]

    The profiler records one [ProfileEntry] per task id in a JavaScript array,
    and [write] hands a chrome-trace JSON document to [outputJsonSync].

    Modelling choices.
    - Task ids are integers ([Z]), as the specification has them; other
      JavaScript numbers are outside the model.  The array [entries] is a
      JavaScript array: an object whose integer keys [0 <= k < 2^32 - 1] are
      array indices (they drive [length]); any other integer key is an
      ordinary property that [JSON.stringify] does not visit.
    - JavaScript numbers holding times are kept as exact rationals ([Q]);
      IEEE rounding is not modelled, so a statement about the value of [ts]
      or [dur] is about the quotient before rounding.
    - [write] is the part of [write()] up to the call of [outputJsonSync];
      [write_file] adds the call, which may throw.
    - Everything the code reads from the Node process (clock, cwd, pid, wall
      time, file system, [JSON.parse]) is a field of a [Host] snapshot that
      each call receives.
    - Methods run in a state-and-exception monad over the [Profiler] object,
      so that what a throwing call leaves behind is part of its result. *)

From Stdlib Require Import QArith Ascii String.
From stdpp Require Import gmap strings list sorting.

#[local] Set Warnings "-register-all".
Local Open Scope string_scope.
Local Open Scope Z_scope.
Local Open Scope list_scope.

(** ** JSON values, as [JSON.parse] returns them and [JSON.stringify] emits them *)

Inductive json : Type :=
  | JNull
  | JBool (b : bool)
  | JNum (q : Q)
  | JStr (s : string)
  | JArr (items : list json)
  | JObj (members : list (string * json)).

(** [o[key]] for an object in document order; [None] models a missing key and
    every non-object. *)
Fixpoint assoc_get (key : string) (members : list (string * json)) : option json :=
  match members with
  | [] => None
  | (k, v) :: rest => if String.eqb k key then Some v else assoc_get key rest
  end.

Definition json_get (key : string) (v : json) : option json :=
  match v with
  | JObj members => assoc_get key members
  | _ => None
  end.

Definition json_keys (v : json) : list string :=
  match v with
  | JObj members => map fst members
  | _ => []
  end.

Definition json_items (v : json) : list json :=
  match v with
  | JArr items => items
  | _ => []
  end.

(** ** Exceptions *)

Inductive Exn : Type :=
  | Error (message : string)       (* [new Error(message)] *)
  | SyntaxError                    (* thrown by [JSON.parse] *)
  | TypeError                      (* property read on [null] *)
  | RangeError                     (* [JSON.stringify]: string too long *)
  | SystemError (code : string).   (* thrown by [fs] calls *)

(** Both [throw] statements of the profiler build the same value. *)
Definition unexpected_state : string :=
  "Error: Usage of '--profile' encountered an unexpected state.".

(** The two error kinds of the specification, as the code raises them. *)
Definition DuplicateTaskError : Exn := Error unexpected_state.
Definition UnknownTaskError : Exn := Error unexpected_state.

(** ** The Node host *)

(** [path.join(dir, file)], kept symbolic. *)
Inductive Path : Type := path_join (dir file : string).

Record Host : Type := {
  hrtime_ns : N;                          (* monotonic clock, in nanoseconds *)
  process_cwd : string;
  process_pid : Z;
  Date_now : Z;                           (* wall clock, ms since the epoch *)
  existsSync : Path -> bool;
  readFileSync : Path -> Exn + string;
  JSON_parse : string -> Exn + json
}.

(** [process.hrtime()]: the clock as [[seconds, nanoseconds]]. *)
Definition process_hrtime (h : Host) : Z * Z :=
  (Z.of_N (hrtime_ns h) / 10^9, Z.of_N (hrtime_ns h) mod 10^9).

(** [process.hrtime(time)]: the clock relative to an earlier reading. *)
Definition process_hrtime_since (h : Host) (time : Z * Z) : Z * Z :=
  let now := process_hrtime h in
  let sec := fst now - fst time in
  let nsec := snd now - snd time in
  if nsec <? 0 then (sec - 1, nsec + 10^9) else (sec, nsec).

(** The quotient is kept exact; the code rounds it to a double. *)
Definition hrtimeToMicroSeconds (hrtime : Z * Z) : Q :=
  Qmake (fst hrtime * 10^9 + snd hrtime) 1000.

(** ** [Date.prototype.toJSON] *)

Definition digit (n : Z) : ascii := ascii_of_nat (48 + Z.to_nat (n mod 10)).

(** The [k] low decimal digits of [n], most significant first. *)
Fixpoint pad (k : nat) (n : Z) : string :=
  match k with
  | O => EmptyString
  | S k' => (pad k' (n / 10) ++ String (digit n) EmptyString)%string
  end.

(** Proleptic Gregorian date of a day number counted from 1970-01-01. *)
Definition civil_from_days (days : Z) : Z * Z * Z :=
  let z := days + 719468 in
  let era := z / 146097 in
  let doe := z mod 146097 in
  let yoe := (doe - doe / 1460 + doe / 36524 - doe / 146096) / 365 in
  let doy := doe - (365 * yoe + yoe / 4 - yoe / 100) in
  let mp := (5 * doy + 2) / 153 in
  let d := doy - (153 * mp + 2) / 5 + 1 in
  let m := if mp <? 10 then mp + 3 else mp - 9 in
  let y := yoe + era * 400 + (if m <=? 2 then 1 else 0) in
  (y, m, d).

Definition year_string (y : Z) : string :=
  if (0 <=? y) && (y <=? 9999) then pad 4 y
  else ((if (y <? 0)%Z then "-" else "+") ++ pad 6 (Z.abs y))%string.

Definition toJSON (t : Z) : string :=
  let '(y, m, d) := civil_from_days (t / 86400000) in
  let ms := t mod 86400000 in
  (year_string y ++ "-" ++ pad 2 m ++ "-" ++ pad 2 d ++ "T"
     ++ pad 2 (ms / 3600000)%Z ++ ":" ++ pad 2 (ms / 60000 mod 60)%Z ++ ":"
     ++ pad 2 (ms / 1000 mod 60)%Z ++ "." ++ pad 3 (ms mod 1000)%Z ++ "Z")%string.

(** [s.replace(/-|:|/g, '')]: every ['-'] and [':'] is dropped; the third,
    empty alternative only matches empty strings. *)
Fixpoint strip_separators (s : string) : string :=
  match s with
  | EmptyString => EmptyString
  | String c rest =>
      if (Ascii.eqb c "-" || Ascii.eqb c ":")%bool then strip_separators rest
      else String c (strip_separators rest)
  end.

(** ** JavaScript arrays *)

Record JsArray (A : Type) : Type := mkArray {
  props : gmap Z A;
  len : Z
}.
Arguments mkArray {A} _ _.
Arguments props {A} _.
Arguments len {A} _.

Definition is_array_index (k : Z) : bool := (0 <=? k) && (k <? 2^32 - 1).

Definition array_empty {A} : JsArray A := mkArray ∅ 0.

Definition array_get {A} (k : Z) (a : JsArray A) : option A := props a !! k.

Definition array_set {A} (k : Z) (v : A) (a : JsArray A) : JsArray A :=
  mkArray (<[k := v]> (props a))
          (if is_array_index k then Z.max (len a) (k + 1) else len a).

(** [JSON.stringify] of an array: indices [0 .. length-1], holes as [null]. *)
Definition array_to_json {A} (f : A -> json) (a : JsArray A) : json :=
  JArr (map (fun k => match props a !! k with
                      | Some v => f v
                      | None => JNull
                      end) (seqZ 0 (len a))).

(** ** Profile entries *)

Inductive Phase : Type := X.
Inductive State : Type := running | succeeded | failed.

Module ProfileEntry.
Record t : Type := mk {
  name : string;
  ph : Phase;
  ts : Q;
  pid : Z;
  tid : Z;
  dur : option Q;
  id : Z;
  cwd : string;
  packageName : option json;
  state : State;
  startTime : Z * Z
}.
End ProfileEntry.

Definition Phase_to_string (p : Phase) : string := match p with X => "X" end.

Definition State_to_string (s : State) : string :=
  match s with
  | running => "running"
  | succeeded => "succeeded"
  | failed => "failed"
  end.

(** A property whose value is [undefined] is left out by [JSON.stringify]. *)
Definition optional (key : string) (v : option json) : list (string * json) :=
  match v with
  | Some j => [(key, j)]
  | None => []
  end.

(** Keys come out in creation order: the literal of [start], then [dur],
    which [stop] adds. *)
Definition entry_to_json (e : ProfileEntry.t) : json :=
  JObj ([ ("name", JStr (ProfileEntry.name e));
          ("ph", JStr (Phase_to_string (ProfileEntry.ph e)));
          ("ts", JNum (ProfileEntry.ts e));
          ("pid", JNum (inject_Z (ProfileEntry.pid e)));
          ("tid", JNum (inject_Z (ProfileEntry.tid e)));
          ("cwd", JStr (ProfileEntry.cwd e)) ]
        ++ optional "packageName" (ProfileEntry.packageName e)
        ++ [ ("id", JNum (inject_Z (ProfileEntry.id e)));
             ("state", JStr (State_to_string (ProfileEntry.state e)));
             ("startTime", JArr [ JNum (inject_Z (fst (ProfileEntry.startTime e)));
                                  JNum (inject_Z (snd (ProfileEntry.startTime e))) ]) ]
        ++ optional "dur" (JNum <$> ProfileEntry.dur e)).

(** ** The profiler object *)

Record Profiler : Type := mkProfiler {
  startTime : Z;
  outputFolder : string;
  endTime : option Z;
  entries : JsArray ProfileEntry.t
}.

(** [new Profiler(outputFolder)]; [undefined] and [''] are both falsy. *)
Definition constructor (h : Host) (folder : option string) : Profiler :=
  mkProfiler (Date_now h)
             (match folder with
              | Some s => if String.eqb s EmptyString then process_cwd h else s
              | None => process_cwd h
              end)
             None
             array_empty.

Definition update_entries (f : JsArray ProfileEntry.t -> JsArray ProfileEntry.t)
    (this : Profiler) : Profiler :=
  mkProfiler (startTime this) (outputFolder this) (endTime this) (f (entries this)).

Definition set_endTime (t : Z) (this : Profiler) : Profiler :=
  mkProfiler (startTime this) (outputFolder this) (Some t) (entries this).

(** ** Methods: state and exceptions *)

Definition M (A : Type) : Type := Profiler -> Profiler * (Exn + A).

Definition ret {A} (x : A) : M A := fun this => (this, inr x).

Definition bind {A B} (m : M A) (k : A -> M B) : M B :=
  fun this =>
    match m this with
    | (this', inr x) => k x this'
    | (this', inl e) => (this', inl e)
    end.

Definition throw {A} (e : Exn) : M A := fun this => (this, inl e).
Definition get_this : M Profiler := fun this => (this, inr this).
Definition set_this (f : Profiler -> Profiler) : M unit := fun this => (f this, inr tt).

(** A host call that returns or throws. *)
Definition host {A} (r : Exn + A) : M A := fun this => (this, r).

Declare Scope js_scope.
Delimit Scope js_scope with js.
Notation "'let!' x := m 'in' k" := (bind m (fun x => k))
  (at level 10, x name, m at level 100, k at level 200) : js_scope.
Notation "m ;; k" := (bind m (fun _ => k))
  (at level 100, k at level 200, right associativity) : js_scope.

(** [packageJson.name] on what [JSON.parse] returned. *)
Definition get_name (packageJson : json) : Exn + option json :=
  match packageJson with
  | JNull => inl TypeError
  | v => inr (json_get "name" v)
  end.

Definition start (h : Host) (id : Z) (name : string) : M unit :=
  (let! this := get_this in
   (if array_get id (entries this) is Some _ then throw DuplicateTaskError else ret tt) ;;
   let startTime := process_hrtime h in
   let cwd := process_cwd h in
   let packageJsonPath := path_join cwd "package.json" in
   let! packageName :=
     (if existsSync h packageJsonPath then
        let! text := host (readFileSync h packageJsonPath) in
        let! packageJson := host (JSON_parse h text) in
        host (get_name packageJson)
      else ret None) in
   set_this (update_entries (array_set id
     (ProfileEntry.mk name X (hrtimeToMicroSeconds startTime) (process_pid h) id
        None id (process_cwd h) packageName running startTime))))%js.

(** [entry.field = ...] on the object stored at [entries[id]]: the array keeps
    its keys and its length. *)
Definition mutate_entry (id : Z) (f : ProfileEntry.t -> ProfileEntry.t)
    (a : JsArray ProfileEntry.t) : JsArray ProfileEntry.t :=
  mkArray (alter f id (props a)) (len a).

Definition set_state (s : State) (e : ProfileEntry.t) : ProfileEntry.t :=
  ProfileEntry.mk (ProfileEntry.name e) (ProfileEntry.ph e) (ProfileEntry.ts e)
    (ProfileEntry.pid e) (ProfileEntry.tid e) (ProfileEntry.dur e) (ProfileEntry.id e)
    (ProfileEntry.cwd e) (ProfileEntry.packageName e) s (ProfileEntry.startTime e).

Definition set_dur (d : Q) (e : ProfileEntry.t) : ProfileEntry.t :=
  ProfileEntry.mk (ProfileEntry.name e) (ProfileEntry.ph e) (ProfileEntry.ts e)
    (ProfileEntry.pid e) (ProfileEntry.tid e) (Some d) (ProfileEntry.id e)
    (ProfileEntry.cwd e) (ProfileEntry.packageName e) (ProfileEntry.state e)
    (ProfileEntry.startTime e).

Definition stop (h : Host) (id : Z) (success : bool) : M unit :=
  (let! this := get_this in
   match array_get id (entries this) with
   | None => throw UnknownTaskError
   | Some entry =>
       set_this (update_entries (mutate_entry id
         (set_state (if success then succeeded else failed)))) ;;
       set_this (update_entries (mutate_entry id
         (set_dur (hrtimeToMicroSeconds
                     (process_hrtime_since h (ProfileEntry.startTime entry))))))
   end)%js.

(** What [write] passes to [outputJsonSync]: a path and a document. *)
Record OutputFile : Type := mkOutput {
  file_path : Path;
  file_data : json
}.

(** [write()] up to the call of [outputJsonSync]: it returns the arguments of
    that call.  [write_file] below adds the call itself. *)
Definition write (h : Host) : M OutputFile :=
  (set_this (set_endTime (Date_now h)) ;;
   let! this := get_this in
   let stamp := toJSON (Date_now h) in
   let fileName := ("just-tasks-Profile-" ++ strip_separators stamp ++ ".json")%string in
   ret (mkOutput (path_join (outputFolder this) fileName)
          (JObj [ ("traceEvents", array_to_json entry_to_json (entries this));
                  ("displayTimeUnit", JStr "ms");
                  ("otherData",
                   JObj [ ("source", JStr "just-tasks profiler");
                          ("startTime", JStr (toJSON (startTime this)));
                          ("endTime", JStr stamp) ]) ])))%js.

(** [outputJsonSync(path, document)] as the host performs it.  It returns, or
    it throws: an [fs] error, or the [RangeError] of [JSON.stringify] when
    the document does not fit a string, as happens for an array whose length
    runs into the hundreds of millions. *)
Definition Sink : Type := OutputFile -> Exn + unit.

(** [write()] to its end: [endTime] is set, the document is built and handed
    to [outputJsonSync]; what that throws comes out of [write()]. *)
Definition write_file (sink : Sink) (h : Host) : M unit :=
  (let! out := write h in host (sink out))%js.

(** ** Call sequences *)

Inductive Call : Type :=
  | Start (id : Z) (name : string)
  | Stop (id : Z) (success : bool).

Definition call (hc : Host * Call) : M unit :=
  match hc with
  | (h, Start id name) => start h id name
  | (h, Stop id success) => stop h id success
  end.

(** The calls one after the other, each under its own host snapshot; the first
    exception ends the sequence. *)
Fixpoint run (calls : list (Host * Call)) : M unit :=
  match calls with
  | [] => ret tt
  | hc :: rest => (call hc ;; run rest)%js
  end.

(** A host whose working directory holds no manifest. *)
Definition plain_host (clock : N) (now : Z) : Host :=
  {| hrtime_ns := clock;
     process_cwd := "/repo";
     process_pid := 4242;
     Date_now := now;
     existsSync := fun _ => false;
     readFileSync := fun _ => inl (SystemError "ENOENT");
     JSON_parse := fun _ => inl SyntaxError |}.

(** A host whose working directory holds a [package.json] that is not JSON. *)
Definition broken_manifest_host (clock : N) (now : Z) : Host :=
  {| hrtime_ns := clock;
     process_cwd := "/repo";
     process_pid := 4242;
     Date_now := now;
     existsSync := fun _ => true;
     readFileSync := fun _ => inr "{ name: ";
     JSON_parse := fun _ => inl SyntaxError |}.

(** A host whose [package.json] parses to an object naming the package. *)
Definition named_host (clock : N) (now : Z) : Host :=
  {| hrtime_ns := clock;
     process_cwd := "/repo";
     process_pid := 4242;
     Date_now := now;
     existsSync := fun _ => true;
     readFileSync := fun _ => inr "{}";
     JSON_parse := fun _ => inr (JObj [("name", JStr "just-task")]) |}.

(** ** What [start] reads from the manifest *)

(** The value computed for [packageName], or the exception met on the way. *)
Definition manifest_name (h : Host) : Exn + option json :=
  let packageJsonPath := path_join (process_cwd h) "package.json" in
  if existsSync h packageJsonPath then
    match readFileSync h packageJsonPath with
    | inl e => inl e
    | inr text =>
        match JSON_parse h text with
        | inl e => inl e
        | inr packageJson => get_name packageJson
        end
    end
  else inr None.

(** The object literal of [start]. *)
Definition new_entry (h : Host) (id : Z) (name : string) (packageName : option json)
    : ProfileEntry.t :=
  ProfileEntry.mk name X (hrtimeToMicroSeconds (process_hrtime h)) (process_pid h) id
    None id (process_cwd h) packageName running (process_hrtime h).

Definition state_of (success : bool) : State := if success then succeeded else failed.

(** The two assignments of [stop]. *)
Definition stopped (h : Host) (success : bool) (e : ProfileEntry.t) : ProfileEntry.t :=
  set_dur (hrtimeToMicroSeconds (process_hrtime_since h (ProfileEntry.startTime e)))
          (set_state (state_of success) e).

(** ** Reading what was written *)

(** The [traceEvents] array of an output document. *)
Definition traceEvents (out : OutputFile) : list json :=
  match json_get "traceEvents" (file_data out) with
  | Some v => json_items v
  | None => []
  end.

(** The document [write] emits for a profiler, under a host. *)
Definition written (h : Host) (p : Profiler) : option OutputFile :=
  match snd (write h p) with
  | inr out => Some out
  | inl _ => None
  end.

(** ** The shape of ISO 8601 time stamps *)

Inductive CharClass : Type := Digit | Sign | Lit (c : ascii).

Definition is_digit (c : ascii) : bool :=
  ((48 <=? nat_of_ascii c)%nat && (nat_of_ascii c <=? 57)%nat)%bool.

Definition in_class (k : CharClass) (c : ascii) : bool :=
  match k with
  | Digit => is_digit c
  | Sign => (Ascii.eqb c "+" || Ascii.eqb c "-")%bool
  | Lit l => Ascii.eqb c l
  end.

Fixpoint matches (pattern : list CharClass) (s : string) : bool :=
  match pattern, s with
  | [], EmptyString => true
  | k :: pattern', String c s' => (in_class k c && matches pattern' s')%bool
  | _, _ => false
  end.

(** [-MM-DDTHH:mm:ss.sssZ] *)
Definition after_year : list CharClass :=
  [ Lit "-"; Digit; Digit; Lit "-"; Digit; Digit; Lit "T";
    Digit; Digit; Lit ":"; Digit; Digit; Lit ":"; Digit; Digit;
    Lit "."; Digit; Digit; Digit; Lit "Z" ]%char.

(** [YYYY-MM-DDTHH:mm:ss.sssZ], or the expanded form with a signed six-digit
    year. *)
Definition is_iso8601 (s : string) : bool :=
  (matches ([Digit; Digit; Digit; Digit] ++ after_year) s
   || matches ([Sign; Digit; Digit; Digit; Digit; Digit; Digit] ++ after_year) s)%bool.

(** ** Histories *)

(** The ids of the [start] calls of a sequence, in order. *)
Definition started_ids (calls : list (Host * Call)) : list Z :=
  omap (fun hc => match snd hc with
                  | Start id _ => Some id
                  | Stop _ _ => None
                  end) calls.

(** The [success] flags of the [stop(id, _)] calls of a sequence, in order. *)
Definition stops_of (id : Z) (calls : list (Host * Call)) : list bool :=
  omap (fun hc => match snd hc with
                  | Stop id' success => if decide (id' = id) then Some success else None
                  | Start _ _ => None
                  end) calls.

Definition last_state (flags : list bool) : State :=
  match last flags with
  | Some success => state_of success
  | None => running
  end.

(** The [length] of an array after assignments at the given keys. *)
Definition array_length (keys : list Z) : Z :=
  foldl (fun n k => if is_array_index k then Z.max n (k + 1) else n) 0 keys.

(** [process.hrtime] is monotonic: along a sequence of calls the clock never
    goes backwards. *)
Definition clock_le (a b : Host * Call) : Prop :=
  (hrtime_ns (fst a) <= hrtime_ns (fst b))%N.

Definition clock_monotone (calls : list (Host * Call)) : Prop :=
  Sorted clock_le calls.

(** The profilers a program can hold: a new one, and whatever a method call
    leaves behind, whether it returned or threw. *)
Inductive reachable : Profiler -> Prop :=
  | reach_new (h : Host) (folder : option string) :
      reachable (constructor h folder)
  | reach_start (h : Host) (id : Z) (name : string) (p : Profiler) :
      reachable p -> reachable (fst (start h id name p))
  | reach_stop (h : Host) (id : Z) (success : bool) (p : Profiler) :
      reachable p -> reachable (fst (stop h id success p))
  | reach_write (h : Host) (p : Profiler) :
      reachable p -> reachable (fst (write h p)).

(** What every stored entry satisfies. *)
Definition entry_ok (k : Z) (e : ProfileEntry.t) : Prop :=
  ProfileEntry.id e = k
  /\ ProfileEntry.tid e = k
  /\ ProfileEntry.ts e = hrtimeToMicroSeconds (ProfileEntry.startTime e)
  /\ (ProfileEntry.dur e = None <-> ProfileEntry.state e = running).

Definition entries_ok (a : JsArray ProfileEntry.t) : Prop :=
  0 <= len a
  /\ forall k e, array_get k a = Some e ->
       entry_ok k e /\ (is_array_index k = true -> k < len a).

(** An entry with its two mutable fields replaced. *)
Definition with_outcome (s : State) (d : option Q) (e : ProfileEntry.t) : ProfileEntry.t :=
  ProfileEntry.mk (ProfileEntry.name e) (ProfileEntry.ph e) (ProfileEntry.ts e)
    (ProfileEntry.pid e) (ProfileEntry.tid e) d (ProfileEntry.id e)
    (ProfileEntry.cwd e) (ProfileEntry.packageName e) s (ProfileEntry.startTime e).

(** How the entries follow from a sequence of calls that all returned: the
    stored ids are the started ones, and each entry is the literal its
    [start] built, with the outcome of the last [stop] of its id. *)
Definition tracks (calls : list (Host * Call)) (a : JsArray ProfileEntry.t) : Prop :=
  (forall k, is_Some (array_get k a) <-> k ∈ started_ids calls)
  /\ len a = array_length (started_ids calls)
  /\ (forall k, k ∉ started_ids calls -> stops_of k calls = [])
  /\ forall k e, array_get k a = Some e ->
       ProfileEntry.state e = last_state (stops_of k calls)
       /\ (ProfileEntry.dur e = None <-> stops_of k calls = [])
       /\ exists h name packageName,
            (h, Start k name) ∈ calls
            /\ manifest_name h = inr packageName
            /\ e = with_outcome (ProfileEntry.state e) (ProfileEntry.dur e)
                     (new_entry h k name packageName).

(** ** Later states and the calling protocol *)

(** [later p q]: [q] is what some further method calls, returning or
    throwing, make of [p]. *)
Inductive later (p : Profiler) : Profiler -> Prop :=
  | later_refl : later p p
  | later_start (h : Host) (id : Z) (name : string) (q : Profiler) :
      later p q -> later p (fst (start h id name q))
  | later_stop (h : Host) (id : Z) (success : bool) (q : Profiler) :
      later p q -> later p (fst (stop h id success q))
  | later_write (h : Host) (q : Profiler) :
      later p q -> later p (fst (write h q)).

(** Whether a method call returned. *)
Definition returns {A} (r : Profiler * (Exn + A)) : bool :=
  match snd r with
  | inr _ => true
  | inl _ => false
  end.

Definition manifest_readable (h : Host) : bool :=
  match manifest_name h with
  | inr _ => true
  | inl _ => false
  end.

(** The calling protocol, given the ids that already have an entry: an id is
    started at most once, under a host whose manifest can be read, and
    stopped only after it was started. *)
Fixpoint protocol_ok (seen : list Z) (calls : list (Host * Call)) : bool :=
  match calls with
  | [] => true
  | (h, Start id _) :: rest =>
      negb (bool_decide (id ∈ seen)) && manifest_readable h && protocol_ok (id :: seen) rest
  | (_, Stop id _) :: rest =>
      bool_decide (id ∈ seen) && protocol_ok seen rest
  end.

(** The hosts of the [stop(id, _)] calls of a sequence, in order. *)
Definition stop_hosts (id : Z) (calls : list (Host * Call)) : list Host :=
  omap (fun hc => match snd hc with
                  | Stop id' _ => if decide (id' = id) then Some (fst hc) else None
                  | Start _ _ => None
                  end) calls.

(** The characters [/-|:|/g] removes. *)
Definition is_separator (c : ascii) : bool :=
  (Ascii.eqb c "-" || Ascii.eqb c ":")%bool.

(** An [outputJsonSync] that gives up on a [traceEvents] array beyond a given
    length. *)
Definition bounded_sink (limit : nat) : Sink :=
  fun out => if (length (traceEvents out) <=? limit)%nat then inr tt else inl RangeError.

(** The stamp of a file name for a four-digit year: [YYYYMMDDTHHmmss.sssZ]. *)
Definition basic_stamp : list CharClass :=
  [ Digit; Digit; Digit; Digit; Digit; Digit; Digit; Digit; Lit "T";
    Digit; Digit; Digit; Digit; Digit; Digit; Lit "."; Digit; Digit; Digit;
    Lit "Z" ]%char.

Definition is_null (v : json) : bool :=
  match v with
  | JNull => true
  | _ => false
  end.

(** * Equations of the methods *)

Lemma start_eq (h : Host) (id : Z) (name : string) (p : Profiler) :
  start h id name p =
    match array_get id (entries p) with
    | Some _ => (p, inl DuplicateTaskError)
    | None =>
        match manifest_name h with
        | inl e => (p, inl e)
        | inr packageName =>
            (update_entries (array_set id (new_entry h id name packageName)) p, inr tt)
        end
    end.
Proof.
  unfold start, manifest_name, bind, get_this, throw, ret, host, set_this, new_entry.
  destruct (array_get id (entries p)) as [e|]; [reflexivity|].
  destruct (existsSync h _); [|reflexivity].
  destruct (readFileSync h _) as [e|text]; [reflexivity|].
  destruct (JSON_parse h text) as [e|packageJson]; [reflexivity|].
  destruct (get_name packageJson); reflexivity.
Qed.

Lemma alter_alter_entry (f g : ProfileEntry.t -> ProfileEntry.t) (id : Z)
    (m : gmap Z ProfileEntry.t) :
  alter f id (alter g id m) = alter (fun e => f (g e)) id m.
Proof.
  apply map_eq; intros k.
  destruct (decide (id = k)) as [->|Hne].
  - rewrite !lookup_alter_eq. destruct (m !! k); reflexivity.
  - rewrite !lookup_alter_ne by done. reflexivity.
Qed.

Lemma stop_eq (h : Host) (id : Z) (success : bool) (p : Profiler) :
  stop h id success p =
    match array_get id (entries p) with
    | None => (p, inl UnknownTaskError)
    | Some entry =>
        (update_entries (mutate_entry id (fun _ => stopped h success entry)) p, inr tt)
    end.
Proof.
  unfold stop, bind, get_this, throw, set_this.
  destruct (array_get id (entries p)) as [entry|] eqn:Hget; [|reflexivity].
  f_equal. destruct p as [t0 folder t1 [m n]]; unfold update_entries, mutate_entry; cbn.
  do 2 f_equal. rewrite alter_alter_entry.
  apply map_eq; intros k.
  destruct (decide (id = k)) as [->|Hne].
  - rewrite !lookup_alter_eq. unfold array_get in Hget; cbn in Hget.
    rewrite Hget. reflexivity.
  - rewrite !lookup_alter_ne by done. reflexivity.
Qed.

Lemma write_eq (h : Host) (p : Profiler) :
  write h p =
    (set_endTime (Date_now h) p,
     inr (mkOutput
            (path_join (outputFolder p)
               ("just-tasks-Profile-" ++ strip_separators (toJSON (Date_now h)) ++ ".json")%string)
            (JObj [ ("traceEvents", array_to_json entry_to_json (entries p));
                    ("displayTimeUnit", JStr "ms");
                    ("otherData",
                     JObj [ ("source", JStr "just-tasks profiler");
                            ("startTime", JStr (toJSON (startTime p)));
                            ("endTime", JStr (toJSON (Date_now h))) ]) ]))).
Proof. reflexivity. Qed.

Lemma array_get_set_eq {A} (k : Z) (v : A) (a : JsArray A) :
  array_get k (array_set k v a) = Some v.
Proof. unfold array_get, array_set; cbn. apply lookup_insert_eq. Qed.

Lemma array_get_set_ne {A} (k j : Z) (v : A) (a : JsArray A) :
  k ≠ j → array_get j (array_set k v a) = array_get j a.
Proof. intros Hne. unfold array_get, array_set; cbn. by apply lookup_insert_ne. Qed.

Lemma array_get_mutate_eq (k : Z) (f : ProfileEntry.t -> ProfileEntry.t)
    (a : JsArray ProfileEntry.t) :
  array_get k (mutate_entry k f a) = f <$> array_get k a.
Proof. unfold array_get, mutate_entry; cbn. apply lookup_alter_eq. Qed.

Lemma array_get_mutate_ne (k j : Z) (f : ProfileEntry.t -> ProfileEntry.t)
    (a : JsArray ProfileEntry.t) :
  k ≠ j → array_get j (mutate_entry k f a) = array_get j a.
Proof. intros Hne. unfold array_get, mutate_entry; cbn. by apply lookup_alter_ne. Qed.

(** The code gives both error kinds of the specification the same class and
    the same message. *)
Lemma error_kinds_coincide : DuplicateTaskError = UnknownTaskError.
Proof. reflexivity. Qed.

(** * Elapsed time *)

Lemma process_hrtime_total (h : Host) :
  fst (process_hrtime h) * 10^9 + snd (process_hrtime h) = Z.of_N (hrtime_ns h).
Proof.
  unfold process_hrtime; cbn [fst snd].
  pose proof (Z.div_mod (Z.of_N (hrtime_ns h)) (10^9)) as Hdm. lia.
Qed.

(** [process.hrtime(t0)] converted to microseconds is the clock difference
    divided by a thousand. *)
Lemma elapsed_microseconds (h0 h : Host) :
  hrtimeToMicroSeconds (process_hrtime_since h (process_hrtime h0))
  = Qmake (Z.of_N (hrtime_ns h) - Z.of_N (hrtime_ns h0)) 1000.
Proof.
  unfold hrtimeToMicroSeconds, process_hrtime_since. f_equal.
  pose proof (process_hrtime_total h) as Hh.
  pose proof (process_hrtime_total h0) as Hh0.
  destruct (_ <? 0); cbn [fst snd]; lia.
Qed.

Lemma elapsed_nonneg (h0 h : Host) :
  (hrtime_ns h0 <= hrtime_ns h)%N ->
  (0 <= hrtimeToMicroSeconds (process_hrtime_since h (process_hrtime h0)))%Q.
Proof.
  intros Hle. rewrite elapsed_microseconds.
  unfold Qle; cbn. lia.
Qed.

(** * Time stamps *)

Lemma digit_cases (n : Z) :
  digit n ∈ ["0"; "1"; "2"; "3"; "4"; "5"; "6"; "7"; "8"; "9"]%char.
Proof.
  unfold digit. pose proof (Z.mod_pos_bound n 10 eq_refl) as Hr.
  assert (exists k, (k < 10)%nat /\ Z.to_nat (n mod 10) = k) as (k & Hk & ->)
    by (eexists; split; [|reflexivity]; lia).
  do 10 (destruct k as [|k]; [cbn; repeat constructor|]). lia.
Qed.

Lemma digit_is_digit (n : Z) : is_digit (digit n) = true.
Proof.
  pose proof (digit_cases n) as H.
  repeat (apply elem_of_cons in H as [-> | H]; [reflexivity|]).
  by apply elem_of_nil in H.
Qed.

Lemma digit_not_separator (n : Z) :
  (Ascii.eqb (digit n) "-" || Ascii.eqb (digit n) ":")%bool = false.
Proof.
  pose proof (digit_cases n) as H.
  repeat (apply elem_of_cons in H as [-> | H]; [reflexivity|]).
  by apply elem_of_nil in H.
Qed.

Lemma digit_not_sign (n : Z) : Ascii.eqb (digit n) "+" = false.
Proof.
  pose proof (digit_cases n) as H.
  repeat (apply elem_of_cons in H as [-> | H]; [reflexivity|]).
  by apply elem_of_nil in H.
Qed.

(** [toJSON] always has the ISO 8601 shape. *)
Lemma toJSON_iso8601 (t : Z) : is_iso8601 (toJSON t) = true.
Proof.
  unfold toJSON. destruct (civil_from_days _) as [[y m] d].
  unfold year_string, is_iso8601.
  destruct (_ && _)%bool; [|destruct (y <? 0)];
    cbv [pad String.append app after_year matches in_class];
    rewrite !digit_is_digit; reflexivity.
Qed.

Lemma strip_separators_app (s1 s2 : string) :
  strip_separators (s1 ++ s2)%string
  = (strip_separators s1 ++ strip_separators s2)%string.
Proof.
  induction s1 as [|c s1 IH]; [reflexivity|].
  change (String c s1 ++ s2)%string with (String c (s1 ++ s2)%string).
  cbn [strip_separators]. rewrite IH. by destruct (_ || _)%bool.
Qed.

Lemma strip_separators_pad (k : nat) (n : Z) : strip_separators (pad k n) = pad k n.
Proof.
  revert n. induction k as [|k IH]; intros n; [reflexivity|].
  cbn [pad]. rewrite strip_separators_app, IH. f_equal.
  cbn [strip_separators]. by rewrite digit_not_separator.
Qed.

(** The stamp inside the file name: digits, [T], [.] and [Z] stay; the dashes
    and colons go, and so does the sign of a negative expanded year. *)
Lemma strip_separators_toJSON (t : Z) :
  let '(y, m, d) := civil_from_days (t / 86400000) in
  let ms := t mod 86400000 in
  strip_separators (toJSON t)
  = ((if ((0 <=? y) && (y <=? 9999))%Z then pad 4 y
      else (if (y <? 0)%Z then EmptyString else "+") ++ pad 6 (Z.abs y))
     ++ pad 2 m ++ pad 2 d ++ "T"
     ++ pad 2 (ms / 3600000)%Z ++ pad 2 (ms / 60000 mod 60)%Z
     ++ pad 2 (ms / 1000 mod 60)%Z
     ++ "." ++ pad 3 (ms mod 1000)%Z ++ "Z")%string.
Proof.
  unfold toJSON. destruct (civil_from_days _) as [[y m] d].
  unfold year_string.
  rewrite !strip_separators_app, !strip_separators_pad.
  destruct (_ && _)%bool; [|destruct (y <? 0)];
    rewrite ?strip_separators_app, ?strip_separators_pad; reflexivity.
Qed.

(** What [strip_separators] keeps, read as a list of characters: everything
    but the dashes and colons, in order. *)
Lemma strip_separators_filter (s : string) :
  list_ascii_of_string (strip_separators s)
  = filter (fun c => is_separator c = false) (list_ascii_of_string s).
Proof.
  induction s as [|c s IH]; [reflexivity|].
  cbn [strip_separators list_ascii_of_string].
  change (Ascii.eqb c "-" || Ascii.eqb c ":")%bool with (is_separator c).
  destruct (is_separator c) eqn:Hc.
  - rewrite filter_cons_False by (rewrite Hc; discriminate). exact IH.
  - rewrite filter_cons_True by exact Hc. cbn [list_ascii_of_string]. by rewrite IH.
Qed.

(** * Reading the emitted document *)

Lemma entry_to_json_fields (e : ProfileEntry.t) :
  let v := entry_to_json e in
  json_get "name" v = Some (JStr (ProfileEntry.name e))
  /\ json_get "ph" v = Some (JStr "X")
  /\ json_get "ts" v = Some (JNum (ProfileEntry.ts e))
  /\ json_get "pid" v = Some (JNum (inject_Z (ProfileEntry.pid e)))
  /\ json_get "tid" v = Some (JNum (inject_Z (ProfileEntry.tid e)))
  /\ json_get "dur" v = JNum <$> ProfileEntry.dur e
  /\ json_get "id" v = Some (JNum (inject_Z (ProfileEntry.id e)))
  /\ json_get "cwd" v = Some (JStr (ProfileEntry.cwd e))
  /\ json_get "packageName" v = ProfileEntry.packageName e
  /\ json_get "state" v = Some (JStr (State_to_string (ProfileEntry.state e)))
  /\ json_get "startTime" v
     = Some (JArr [ JNum (inject_Z (fst (ProfileEntry.startTime e)));
                    JNum (inject_Z (snd (ProfileEntry.startTime e))) ]).
Proof.
  destruct e as [name [] ts pid tid [d|] id cwd [pn|] st t0]; cbn; repeat split.
Qed.

Lemma written_eq (h : Host) (p : Profiler) :
  exists out,
    written h p = Some out
    /\ traceEvents out = json_items (array_to_json entry_to_json (entries p)).
Proof. eexists. split; reflexivity. Qed.

(** [write()] ends as [outputJsonSync] does, with [endTime] already set. *)
Lemma write_file_eq (sink : Sink) (h : Host) (p : Profiler) :
  exists out,
    written h p = Some out
    /\ traceEvents out = json_items (array_to_json entry_to_json (entries p))
    /\ write_file sink h p = (set_endTime (Date_now h) p, sink out).
Proof. eexists. repeat split. Qed.

Lemma write_file_returns (sink : Sink) (h : Host) (p p' : Profiler) :
  write_file sink h p = (p', inr tt) ->
  exists out,
    written h p = Some out
    /\ sink out = inr tt
    /\ traceEvents out = json_items (array_to_json entry_to_json (entries p)).
Proof.
  destruct (write_file_eq sink h p) as (out & Hout & Hev & ->).
  intros [= _ Hsink]. exists out. by rewrite Hsink.
Qed.

(** A [write()] whose [outputJsonSync] gives up: after [start(5, "build")]
    the array has six elements, and a sink that takes at most two throws. *)
Example write_file_may_throw :
  let p := fst (start (plain_host 1000 0) 5 "build" (constructor (plain_host 0 0) None)) in
  write_file (bounded_sink 2) (plain_host 9000 9) p = (set_endTime 9 p, inl RangeError).
Proof. reflexivity. Qed.

Lemma items_length {A} (f : A -> json) (a : JsArray A) :
  length (json_items (array_to_json f a)) = Z.to_nat (len a).
Proof. cbn. by rewrite length_map, length_seqZ. Qed.

Lemma items_lookup {A} (f : A -> json) (a : JsArray A) (j : nat) (v : json) :
  json_items (array_to_json f a) !! j = Some v
  <-> Z.of_nat j < len a
      /\ v = match array_get (Z.of_nat j) a with
             | Some x => f x
             | None => JNull
             end.
Proof.
  cbn [json_items array_to_json]. rewrite list_lookup_fmap. unfold array_get. split.
  - intros H. destruct (seqZ 0 (len a) !! j) as [k|] eqn:Hk; [|discriminate].
    apply lookup_seqZ in Hk as [-> Hlt]. cbn in H.
    rewrite Z.add_0_l in H. split; [exact Hlt | congruence].
  - intros [Hlt ->]. rewrite lookup_seqZ_lt by exact Hlt.
    cbn. by rewrite Z.add_0_l.
Qed.

(** * Invariants of the stored entries *)

Lemma entries_ok_set (id : Z) (e : ProfileEntry.t) (a : JsArray ProfileEntry.t) :
  entries_ok a -> entry_ok id e -> entries_ok (array_set id e a).
Proof.
  intros [Hlen Hall] He. split.
  - unfold array_set; cbn. destruct (is_array_index id); lia.
  - intros k e' Hget. destruct (decide (id = k)) as [->|Hne].
    + rewrite array_get_set_eq in Hget. injection Hget as <-.
      split; [exact He|]. intros Hidx. unfold array_set; cbn. rewrite Hidx. lia.
    + rewrite array_get_set_ne in Hget by exact Hne.
      destruct (Hall k e' Hget) as [Hok Hlt]. split; [exact Hok|].
      intros Hidx. specialize (Hlt Hidx).
      unfold array_set; cbn. destruct (is_array_index id); lia.
Qed.

Lemma entries_ok_mutate (id : Z) (f : ProfileEntry.t -> ProfileEntry.t)
    (a : JsArray ProfileEntry.t) :
  entries_ok a ->
  (forall e, array_get id a = Some e -> entry_ok id e -> entry_ok id (f e)) ->
  entries_ok (mutate_entry id f a).
Proof.
  intros [Hlen Hall] Hf. split; [exact Hlen|].
  intros k e' Hget. destruct (decide (id = k)) as [->|Hne].
  - rewrite array_get_mutate_eq in Hget.
    destruct (array_get k a) as [e|] eqn:Hk; [|discriminate].
    injection Hget as <-. destruct (Hall k e Hk) as [Hok Hlt].
    split; [by apply Hf | exact Hlt].
  - rewrite array_get_mutate_ne in Hget by exact Hne. by apply Hall.
Qed.

Lemma entry_ok_new (h : Host) (id : Z) (name : string) (packageName : option json) :
  entry_ok id (new_entry h id name packageName).
Proof. repeat split. Qed.

Lemma entry_ok_stopped (h : Host) (success : bool) (k : Z) (e : ProfileEntry.t) :
  entry_ok k e -> entry_ok k (stopped h success e).
Proof.
  intros (Hid & Htid & Hts & _). repeat split; try assumption.
  - discriminate.
  - by destruct success.
Qed.

Lemma reachable_entries_ok (p : Profiler) : reachable p -> entries_ok (entries p).
Proof.
  induction 1 as [h folder | h id name p _ IH | h id success p _ IH | h p _ IH].
  - split; [done|]. intros k e Hget. unfold array_get in Hget; cbn in Hget.
    by rewrite lookup_empty in Hget.
  - rewrite start_eq. destruct (array_get id (entries p)); [exact IH|].
    destruct (manifest_name h) as [e|packageName]; [exact IH|].
    cbn. apply entries_ok_set; [exact IH | apply entry_ok_new].
  - rewrite stop_eq. destruct (array_get id (entries p)) as [entry|] eqn:Hget; [|exact IH].
    cbn. apply entries_ok_mutate; [exact IH|].
    intros e He Hok. rewrite Hget in He. injection He as <-.
    by apply entry_ok_stopped.
  - exact IH.
Qed.

(** * Sequences of calls *)

Lemma call_reachable (hc : Host * Call) (p : Profiler) :
  reachable p -> reachable (fst (call hc p)).
Proof. destruct hc as [h [id name | id success]]; cbn; by constructor. Qed.

Lemma run_cons (hc : Host * Call) (calls : list (Host * Call)) (p : Profiler) :
  run (hc :: calls) p =
    match call hc p with
    | (p1, inr _) => run calls p1
    | (p1, inl e) => (p1, inl e)
    end.
Proof. reflexivity. Qed.

Lemma run_reachable (calls : list (Host * Call)) (p : Profiler) :
  reachable p -> reachable (fst (run calls p)).
Proof.
  revert p. induction calls as [|hc calls IH]; intros p Hp; [exact Hp|].
  rewrite run_cons. pose proof (call_reachable hc p Hp) as H1.
  destruct (call hc p) as [p1 [e|[]]]; [exact H1 | by apply IH].
Qed.

Lemma run_snoc (calls : list (Host * Call)) (hc : Host * Call) (p p' : Profiler) :
  run (calls ++ [hc]) p = (p', inr tt) ->
  exists p1, run calls p = (p1, inr tt) /\ call hc p1 = (p', inr tt).
Proof.
  revert p. induction calls as [|c calls IH]; intros p.
  - cbn [app]. rewrite run_cons. destruct (call hc p) as [p1 [e|[]]] eqn:Hc.
    + discriminate.
    + cbn. intros [= <-]. exists p. by rewrite Hc.
  - rewrite <- app_comm_cons, !run_cons.
    destruct (call c p) as [p1 [e|[]]]; [discriminate|]. apply IH.
Qed.

Lemma start_returns (h : Host) (id : Z) (name : string) (p p' : Profiler) :
  start h id name p = (p', inr tt) ->
  array_get id (entries p) = None
  /\ exists packageName,
       manifest_name h = inr packageName
       /\ p' = update_entries (array_set id (new_entry h id name packageName)) p.
Proof.
  rewrite start_eq. destruct (array_get id (entries p)); [discriminate|].
  destruct (manifest_name h) as [e|packageName]; [discriminate|].
  intros [= <-]. eauto.
Qed.

Lemma stop_returns (h : Host) (id : Z) (success : bool) (p p' : Profiler) :
  stop h id success p = (p', inr tt) ->
  exists entry,
    array_get id (entries p) = Some entry
    /\ p' = update_entries (mutate_entry id (fun _ => stopped h success entry)) p.
Proof.
  rewrite stop_eq. destruct (array_get id (entries p)) as [entry|]; [|discriminate].
  intros [= <-]. eauto.
Qed.

Lemma started_ids_snoc (calls : list (Host * Call)) (hc : Host * Call) :
  started_ids (calls ++ [hc])
  = started_ids calls ++ match snd hc with
                         | Start id _ => [id]
                         | Stop _ _ => []
                         end.
Proof.
  unfold started_ids. rewrite omap_app. f_equal.
  destruct hc as [h [id name | id success]]; reflexivity.
Qed.

Lemma stops_of_snoc (k : Z) (calls : list (Host * Call)) (hc : Host * Call) :
  stops_of k (calls ++ [hc])
  = stops_of k calls ++ match snd hc with
                        | Stop id success => if decide (id = k) then [success] else []
                        | Start _ _ => []
                        end.
Proof.
  unfold stops_of. rewrite omap_app. f_equal.
  destruct hc as [h [id name | id success]]; [reflexivity|].
  cbn. destruct (decide (id = k)); reflexivity.
Qed.

Lemma array_length_snoc (keys : list Z) (k : Z) :
  array_length (keys ++ [k])
  = if is_array_index k then Z.max (array_length keys) (k + 1) else array_length keys.
Proof. unfold array_length. by rewrite foldl_snoc. Qed.

Lemma tracks_start (calls : list (Host * Call)) (h : Host) (id : Z) (name : string)
    (packageName : option json) (a : JsArray ProfileEntry.t) :
  tracks calls a ->
  array_get id a = None ->
  manifest_name h = inr packageName ->
  tracks (calls ++ [(h, Start id name)])
         (array_set id (new_entry h id name packageName) a).
Proof.
  intros (Hdom & Hlen & Hstops & Hent) Hnone Hmanifest.
  assert (id ∉ started_ids calls) as Hfresh.
  { intros Hin. apply Hdom in Hin as [e He]. congruence. }
  split; [|split; [|split]].
  - intros k. rewrite started_ids_snoc, elem_of_app; cbn [snd].
    rewrite <- Hdom. destruct (decide (id = k)) as [->|Hne].
    + rewrite array_get_set_eq. split; [intros _; right; constructor | eauto].
    + rewrite array_get_set_ne by exact Hne. split; [by left|].
      intros [H|H]; [exact H|]. apply list_elem_of_singleton in H. congruence.
  - rewrite started_ids_snoc; cbn [snd]. rewrite array_length_snoc, <- Hlen.
    reflexivity.
  - intros k Hk. rewrite started_ids_snoc, elem_of_app in Hk.
    rewrite stops_of_snoc; cbn [snd]. rewrite app_nil_r. apply Hstops. tauto.
  - intros k e Hget. rewrite stops_of_snoc; cbn [snd]. rewrite app_nil_r.
    destruct (decide (id = k)) as [->|Hne].
    + rewrite array_get_set_eq in Hget. injection Hget as <-.
      rewrite (Hstops k Hfresh). split; [reflexivity|]. split; [done|].
      exists h, name, packageName. split; [|done]. apply elem_of_app. right. constructor.
    + rewrite array_get_set_ne in Hget by exact Hne.
      destruct (Hent k e Hget) as (Hst & Hdur & h0 & name0 & pn0 & Hin & Hm0 & He).
      split; [exact Hst|]. split; [exact Hdur|].
      exists h0, name0, pn0. split; [|done]. apply elem_of_app. by left.
Qed.

Lemma tracks_stop (calls : list (Host * Call)) (h : Host) (id : Z) (success : bool)
    (entry : ProfileEntry.t) (a : JsArray ProfileEntry.t) :
  tracks calls a ->
  array_get id a = Some entry ->
  tracks (calls ++ [(h, Stop id success)])
         (mutate_entry id (fun _ => stopped h success entry) a).
Proof.
  intros (Hdom & Hlen & Hstops & Hent) Hsome.
  assert (id ∈ started_ids calls) as Hold by (apply Hdom; eauto).
  split; [|split; [|split]].
  - intros k. rewrite started_ids_snoc; cbn [snd]. rewrite app_nil_r, <- Hdom.
    destruct (decide (id = k)) as [->|Hne].
    + rewrite array_get_mutate_eq, Hsome. split; eauto.
    + by rewrite array_get_mutate_ne.
  - rewrite started_ids_snoc; cbn [snd]. rewrite app_nil_r. exact Hlen.
  - intros k Hk. rewrite started_ids_snoc in Hk; cbn [snd] in Hk.
    rewrite app_nil_r in Hk.
    rewrite stops_of_snoc; cbn [snd]. rewrite (Hstops k Hk).
    destruct (decide (id = k)) as [->|Hne]; [contradiction | reflexivity].
  - intros k e Hget. rewrite stops_of_snoc; cbn [snd].
    destruct (decide (id = k)) as [->|Hne].
    + rewrite array_get_mutate_eq, Hsome in Hget. injection Hget as <-.
      destruct (Hent k entry Hsome) as (_ & _ & h0 & name0 & pn0 & Hin & Hm0 & He).
      split; [|split].
      * unfold last_state. rewrite last_snoc. reflexivity.
      * split; [discriminate|]. intros H. by apply app_nil in H as [_ ?].
      * exists h0, name0, pn0. split; [apply elem_of_app; by left|].
        split; [exact Hm0|]. rewrite He. reflexivity.
    + rewrite array_get_mutate_ne in Hget by exact Hne. rewrite app_nil_r.
      destruct (Hent k e Hget) as (Hst & Hdur & h0 & name0 & pn0 & Hin & Hm0 & He).
      split; [exact Hst|]. split; [exact Hdur|].
      exists h0, name0, pn0. split; [|done]. apply elem_of_app. by left.
Qed.

Lemma run_tracks (calls : list (Host * Call)) (p0 p : Profiler) :
  entries p0 = array_empty ->
  run calls p0 = (p, inr tt) ->
  tracks calls (entries p).
Proof.
  intros Hempty. revert p.
  induction calls as [|hc calls IH] using rev_ind; intros p Hrun.
  - injection Hrun as <-. rewrite Hempty. split; [|split; [|split]].
    + intros k. unfold array_get; cbn. rewrite lookup_empty. split.
      * by intros [? ?].
      * intros H. by apply elem_of_nil in H.
    + reflexivity.
    + reflexivity.
    + intros k e Hget. unfold array_get in Hget; cbn in Hget.
      by rewrite lookup_empty in Hget.
  - apply run_snoc in Hrun as (p1 & Hrun & Hcall).
    specialize (IH p1 Hrun). destruct hc as [h [id name | id success]]; cbn in Hcall.
    + apply start_returns in Hcall as (Hnone & packageName & Hmanifest & ->).
      cbn. by apply tracks_start.
    + apply stop_returns in Hcall as (entry & Hsome & ->).
      cbn. by apply tracks_stop.
Qed.

(** With a monotonic clock, no stored duration is negative. *)
Lemma run_dur_nonneg (calls : list (Host * Call)) (p0 p : Profiler) :
  entries p0 = array_empty ->
  StronglySorted clock_le calls ->
  run calls p0 = (p, inr tt) ->
  forall k e d,
    array_get k (entries p) = Some e -> ProfileEntry.dur e = Some d -> (0 <= d)%Q.
Proof.
  intros Hempty. revert p.
  induction calls as [|hc calls IH] using rev_ind; intros p Hsorted Hrun k e d Hget Hdur.
  - injection Hrun as <-. rewrite Hempty in Hget.
    unfold array_get in Hget; cbn in Hget. by rewrite lookup_empty in Hget.
  - apply run_snoc in Hrun as (p1 & Hrun & Hcall).
    pose proof (StronglySorted_app_1_l _ _ _ Hsorted) as Hsorted1.
    specialize (IH p1 Hsorted1 Hrun).
    destruct hc as [h [id name | id success]]; cbn in Hcall.
    + apply start_returns in Hcall as (Hnone & packageName & _ & ->).
      cbn in Hget. destruct (decide (id = k)) as [->|Hne].
      * rewrite array_get_set_eq in Hget. injection Hget as <-. discriminate.
      * rewrite array_get_set_ne in Hget by exact Hne. by eapply IH.
    + apply stop_returns in Hcall as (entry & Hsome & ->).
      cbn in Hget. destruct (decide (id = k)) as [->|Hne].
      * rewrite array_get_mutate_eq, Hsome in Hget. injection Hget as <-.
        injection Hdur as <-.
        destruct (run_tracks calls p0 p1 Hempty Hrun) as (_ & _ & _ & Hent).
        destruct (Hent k entry Hsome) as (_ & _ & h0 & name0 & pn0 & Hin & _ & He).
        assert (ProfileEntry.startTime entry = process_hrtime h0) as ->
          by (rewrite He; reflexivity).
        assert (clock_le (h0, Start k name0) (h, Stop k success)) as Hle.
        { eapply StronglySorted_app_1_elem_of; [exact Hsorted | exact Hin | constructor]. }
        apply elapsed_nonneg. exact Hle.
      * rewrite array_get_mutate_ne in Hget by exact Hne. by eapply IH.
Qed.

#[local] Instance clock_le_transitive : Transitive clock_le.
Proof. intros a b c. unfold clock_le. lia. Qed.

(** * C1: one trace entry per task *)

(** C1, as amended: take a sequence of [start] and [stop] calls that all
    returned, on a new profiler, with a clock that never goes backwards, and a
    [write()] after them that returned as well.  For every started id that is
    an array index and was stopped exactly once, the output of that [write()]
    holds exactly one trace entry of that id (at [traceEvents[id]]), with
    [dur >= 0] and with state ["succeeded"] when the stop's flag was [true]
    and ["failed"] when it was [false].  Every entry in the output belongs to
    a started id.  Nothing is said of a [write()] that throws, as it does
    when the array is too long for [JSON.stringify]. *)
Theorem one_entry_per_task (h0 hw : Host) (folder : option string)
    (calls : list (Host * Call)) (p p' : Profiler) (sink : Sink)
    (id : Z) (success : bool) :
  run calls (constructor h0 folder) = (p, inr tt) ->
  clock_monotone calls ->
  id ∈ started_ids calls ->
  is_array_index id = true ->
  stops_of id calls = [success] ->
  write_file sink hw p = (p', inr tt) ->
  exists out e d,
    written hw p = Some out
    /\ sink out = inr tt
    /\ traceEvents out !! Z.to_nat id = Some (entry_to_json e)
    /\ (forall (j : nat) (v : json),
          traceEvents out !! j = Some v ->
          json_get "id" v = Some (JNum (inject_Z id)) -> j = Z.to_nat id)
    /\ (forall (j : nat) (v : json),
          traceEvents out !! j = Some v -> v ≠ JNull ->
          Z.of_nat j ∈ started_ids calls)
    /\ json_get "id" (entry_to_json e) = Some (JNum (inject_Z id))
    /\ json_get "dur" (entry_to_json e) = Some (JNum d)
    /\ (0 <= d)%Q
    /\ json_get "state" (entry_to_json e)
       = Some (JStr (if success then "succeeded" else "failed")).
Proof.
  intros Hrun Hclock Hstarted Hidx Hstops Hwrite.
  destruct (run_tracks calls (constructor h0 folder) p eq_refl Hrun) as (Hdom & _ & _ & Hent).
  assert (reachable p) as Hreach.
  { change p with (fst (p, @inr Exn unit tt)). rewrite <- Hrun.
    apply run_reachable, reach_new. }
  apply reachable_entries_ok in Hreach as [_ Hok].
  apply Hdom in Hstarted as [e Hget].
  destruct (Hent id e Hget) as (Hstate & Hdur & _).
  destruct (Hok id e Hget) as [(Hid & _) Hlt]. specialize (Hlt Hidx).
  assert (0 <= id) as Hid0 by (unfold is_array_index in Hidx; lia).
  destruct (ProfileEntry.dur e) as [d|] eqn:Hd.
  2: { destruct Hdur as [Hdur _]. rewrite Hstops in Hdur. by specialize (Hdur eq_refl). }
  assert (0 <= d)%Q as Hnonneg.
  { apply (run_dur_nonneg calls (constructor h0 folder) p eq_refl
             (Sorted_StronglySorted clock_le calls Hclock) Hrun id e d Hget Hd). }
  destruct (write_file_returns sink hw p p' Hwrite) as (out & Hout & Hsink & Hev).
  exists out, e, d. split; [exact Hout|]. split; [exact Hsink|]. rewrite Hev.
  pose proof (entry_to_json_fields e) as H. cbn zeta in H.
  destruct H as (_ & _ & _ & _ & _ & Hjdur & Hjid & _ & _ & Hjstate & _).
  split; [|split; [|split; [|split; [|split; [|split]]]]].
  - apply items_lookup. rewrite Z2Nat.id by exact Hid0.
    split; [exact Hlt|]. by rewrite Hget.
  - intros j v Hv Hvid. apply items_lookup in Hv as [_ ->].
    destruct (array_get (Z.of_nat j) (entries p)) as [e'|] eqn:Hget'; [|discriminate].
    destruct (Hok _ e' Hget') as [(Hid' & _) _].
    pose proof (entry_to_json_fields e') as H'. cbn zeta in H'.
    destruct H' as (_ & _ & _ & _ & _ & _ & Hjid' & _).
    rewrite Hjid', Hid' in Hvid. injection Hvid as Hj. lia.
  - intros j v Hv Hnull. apply items_lookup in Hv as [_ ->].
    destruct (array_get (Z.of_nat j) (entries p)) as [e'|] eqn:Hget'; [|done].
    apply Hdom. eauto.
  - by rewrite Hjid, Hid.
  - by rewrite Hjdur, Hd.
  - exact Hnonneg.
  - rewrite Hjstate, Hstate, Hstops. by destruct success.
Qed.

Lemma one_entry_per_task_witness :
  let calls := [ (plain_host 1000 0, Start 1 "build");
                 (named_host 2000 0, Start 3 "test");
                 (plain_host 3500 0, Stop 1 true);
                 (plain_host 4000 0, Stop 3 false) ] in
  let p := fst (run calls (constructor (plain_host 0 1793624000000) None)) in
  exists out e d,
    written (plain_host 9000 1793624040123) p = Some out
    /\ bounded_sink 1000 out = inr tt
    /\ traceEvents out !! 3%nat = Some (entry_to_json e)
    /\ json_get "dur" (entry_to_json e) = Some (JNum d)
    /\ (0 <= d)%Q
    /\ json_get "state" (entry_to_json e) = Some (JStr "failed").
Proof.
  intros calls p.
  destruct (one_entry_per_task (plain_host 0 1793624000000)
              (plain_host 9000 1793624040123) None calls p
              (set_endTime 1793624040123 p) (bounded_sink 1000) 3 false)
    as (out & e & d & Hout & Hsink & Hev & _ & _ & _ & Hdur & Hd & Hstate).
  { reflexivity. }
  { unfold clock_monotone, clock_le. repeat constructor; cbn; lia. }
  { cbn. repeat constructor. }
  { reflexivity. }
  { reflexivity. }
  { reflexivity. }
  exists out, e, d. repeat split; assumption.
Defined.

(** C1 as stated fails: a negative id is stored as a plain property of the
    array, not as an element, so a task started and stopped once under id
    [-1] leaves no trace entry in the output. *)
Lemma negative_id_leaves_no_entry :
  let calls := [ (plain_host 1000 0, Start (-1) "build");
                 (plain_host 3500 0, Stop (-1) true) ] in
  let p := fst (run calls (constructor (plain_host 0 1793624000000) None)) in
  exists out,
    snd (run calls (constructor (plain_host 0 1793624000000) None)) = inr tt
    /\ started_ids calls = [-1]
    /\ stops_of (-1) calls = [true]
    /\ (ProfileEntry.state <$> array_get (-1) (entries p)) = Some succeeded
    /\ written (plain_host 9000 1793624040123) p = Some out
    /\ traceEvents out = [].
Proof. intros calls p. eexists. repeat split. Qed.

(** * C2: [start] *)

(** C2, as amended: [start(id, name)] throws the duplicate-task error and
    leaves the profiler as it was when [id] already has an entry.  Otherwise,
    when the working directory has no [package.json], or has one that is read
    and parsed without an exception to a value other than [null], it returns
    normally and [entries[id]] is a new entry in state [running], every other
    id being left alone. *)
Theorem start_contract (h : Host) (id : Z) (name : string) (p : Profiler) :
  (is_Some (array_get id (entries p)) ->
     start h id name p = (p, inl DuplicateTaskError))
  /\ (array_get id (entries p) = None ->
      existsSync h (path_join (process_cwd h) "package.json") = false
      \/ (exists text v,
            existsSync h (path_join (process_cwd h) "package.json") = true
            /\ readFileSync h (path_join (process_cwd h) "package.json") = inr text
            /\ JSON_parse h text = inr v
            /\ v ≠ JNull) ->
      exists p' e packageName,
        start h id name p = (p', inr tt)
        /\ array_get id (entries p') = Some e
        /\ e = new_entry h id name packageName
        /\ ProfileEntry.state e = running
        /\ ProfileEntry.dur e = None
        /\ (forall k, k ≠ id -> array_get k (entries p') = array_get k (entries p))).
Proof.
  rewrite start_eq. split.
  - intros [e He]. rewrite He. reflexivity.
  - intros Hnone Hmanifest. rewrite Hnone.
    assert (exists packageName, manifest_name h = inr packageName) as [packageName Hname].
    { unfold manifest_name.
      destruct Hmanifest as [-> | (text & v & -> & -> & -> & Hv)]; [by eexists|].
      destruct v; [done | by eexists ..]. }
    rewrite Hname. eexists _, _, packageName. split; [reflexivity|].
    cbn. rewrite array_get_set_eq. repeat split.
    intros k Hk. by apply array_get_set_ne.
Qed.

Lemma start_contract_witness :
  let p0 := constructor (plain_host 0 0) None in
  (exists p' e,
      start (plain_host 1000 5) 1 "build" p0 = (p', inr tt)
      /\ array_get 1 (entries p') = Some e
      /\ ProfileEntry.state e = running)
  /\ (exists p' e,
        start (named_host 1000 5) 1 "build" p0 = (p', inr tt)
        /\ array_get 1 (entries p') = Some e
        /\ ProfileEntry.state e = running)
  /\ start (plain_host 1000 5) 1 "again" (fst (start (plain_host 1000 5) 1 "build" p0))
     = (fst (start (plain_host 1000 5) 1 "build" p0), inl DuplicateTaskError).
Proof.
  intros p0. split; [|split].
  - destruct (start_contract (plain_host 1000 5) 1 "build" p0) as [_ H].
    destruct (H eq_refl (or_introl eq_refl)) as (p' & e & pn & Hs & Hg & _ & Hst & _).
    by exists p', e.
  - destruct (start_contract (named_host 1000 5) 1 "build" p0) as [_ H].
    destruct (H eq_refl) as (p' & e & pn & Hs & Hg & _ & Hst & _).
    { right. exists "{}", (JObj [("name", JStr "just-task")]). by repeat split. }
    by exists p', e.
  - apply (start_contract (plain_host 1000 5) 1 "again"
             (fst (start (plain_host 1000 5) 1 "build" p0))).
    eexists. vm_compute. reflexivity.
Defined.

(** C2 as stated fails: a fresh id does not make [start] succeed when the
    [package.json] of the working directory is not JSON. *)
Lemma start_fresh_id_may_throw :
  let p0 := constructor (plain_host 0 0) None in
  array_get 1 (entries p0) = None
  /\ start (broken_manifest_host 1000 5) 1 "build" p0 = (p0, inl SyntaxError)
  /\ forall p', start (broken_manifest_host 1000 5) 1 "build" p0 ≠ (p', inr tt).
Proof.
  intros p0. split; [reflexivity|]. split; [reflexivity|].
  intros p' H. rewrite start_eq in H. cbn in H. discriminate H.
Qed.

(** * C3: [stop] *)

(** C3: [stop(id, success)] throws the unknown-task error and leaves the
    profiler as it was when [id] has no entry; otherwise it returns normally,
    the entry's state is [succeeded] or [failed] as [success] says, its [dur]
    is the time elapsed on the clock since the entry's stored start time, in
    microseconds, and nothing else changes. *)
Theorem stop_contract (h : Host) (id : Z) (success : bool) (p : Profiler) :
  (array_get id (entries p) = None ->
     stop h id success p = (p, inl UnknownTaskError))
  /\ (forall entry, array_get id (entries p) = Some entry ->
      exists p' e,
        stop h id success p = (p', inr tt)
        /\ array_get id (entries p') = Some e
        /\ ProfileEntry.state e = (if success then succeeded else failed)
        /\ ProfileEntry.dur e
           = Some (hrtimeToMicroSeconds
                     (process_hrtime_since h (ProfileEntry.startTime entry)))
        /\ (forall h0, ProfileEntry.startTime entry = process_hrtime h0 ->
            ProfileEntry.dur e
            = Some (Qmake (Z.of_N (hrtime_ns h) - Z.of_N (hrtime_ns h0)) 1000))
        /\ e = set_dur (hrtimeToMicroSeconds
                          (process_hrtime_since h (ProfileEntry.startTime entry)))
                 (set_state (ProfileEntry.state e) entry)
        /\ (forall k, k ≠ id -> array_get k (entries p') = array_get k (entries p))
        /\ len (entries p') = len (entries p)).
Proof.
  rewrite stop_eq. split.
  - intros Hnone. rewrite Hnone. reflexivity.
  - intros entry Hget. rewrite Hget.
    eexists _, _. split; [reflexivity|].
    cbn [entries update_entries]. rewrite array_get_mutate_eq, Hget.
    split; [reflexivity|]. split; [by destruct success|].
    split; [reflexivity|].
    split; [|split; [reflexivity|split; [|reflexivity]]].
    + intros h0 Ht0. rewrite <- elapsed_microseconds, <- Ht0. reflexivity.
    + intros k Hk. by apply array_get_mutate_ne.
Qed.

Lemma stop_contract_witness :
  let p0 := constructor (plain_host 0 0) None in
  let p1 := fst (start (plain_host 1000 5) 1 "build" p0) in
  stop (plain_host 3500 9) 7 true p1 = (p1, inl UnknownTaskError)
  /\ exists p' e,
       stop (plain_host 3500 9) 1 false p1 = (p', inr tt)
       /\ array_get 1 (entries p') = Some e
       /\ ProfileEntry.state e = failed
       /\ ProfileEntry.dur e = Some (Qmake 2500 1000).
Proof.
  intros p0 p1. split.
  - apply (stop_contract (plain_host 3500 9) 7 true p1). reflexivity.
  - destruct (stop_contract (plain_host 3500 9) 1 false p1) as [_ H].
    destruct (H (new_entry (plain_host 1000 5) 1 "build" None) eq_refl)
      as (p' & e & Hstop & Hget & Hstate & _ & Hdur & _).
    exists p', e. repeat split; try assumption.
    apply (Hdur (plain_host 1000 5)). reflexivity.
Defined.

(** * C4: start(1, "build"); stop(1, true); write() *)

(** C4, as amended: after [start(1, "build")], [stop(1, true)] and [write()]
    on a new profiler, [traceEvents[0]] is [null], and it is [traceEvents[1]]
    that has [name === "build"], [ph === "X"] and [state === "succeeded"]. *)
Theorem build_scenario (h0 h1 h2 hw : Host) (folder : option string) (p1 : Profiler) :
  start h1 1 "build" (constructor h0 folder) = (p1, inr tt) ->
  exists p2 out ev,
    stop h2 1 true p1 = (p2, inr tt)
    /\ written hw p2 = Some out
    /\ length (traceEvents out) = 2%nat
    /\ traceEvents out !! 0%nat = Some JNull
    /\ traceEvents out !! 1%nat = Some ev
    /\ json_get "name" ev = Some (JStr "build")
    /\ json_get "ph" ev = Some (JStr "X")
    /\ json_get "state" ev = Some (JStr "succeeded").
Proof.
  intros Hstart. apply start_returns in Hstart as (_ & packageName & _ & ->).
  set (e1 := new_entry h1 1 "build" packageName).
  set (p1 := update_entries (array_set 1 e1) (constructor h0 folder)).
  assert (array_get 1 (entries p1) = Some e1) as Hget by apply array_get_set_eq.
  destruct (written_eq hw (update_entries (mutate_entry 1 (fun _ => stopped h2 true e1)) p1))
    as (out & Hout & Hev).
  exists (update_entries (mutate_entry 1 (fun _ => stopped h2 true e1)) p1), out,
         (entry_to_json (stopped h2 true e1)).
  split; [by rewrite stop_eq, Hget|]. split; [exact Hout|]. rewrite Hev.
  split; [by rewrite items_length|].
  split; [|split].
  - apply items_lookup. split; [done|]. reflexivity.
  - apply items_lookup. split; [done|].
    cbn [entries update_entries]. change (Z.of_nat 1) with 1.
    by rewrite array_get_mutate_eq, Hget.
  - pose proof (entry_to_json_fields (stopped h2 true e1)) as H. cbn zeta in H.
    destruct H as (Hname & Hph & _ & _ & _ & _ & _ & _ & _ & Hstate & _).
    split; [exact Hname|]. split; [exact Hph | exact Hstate].
Qed.

Lemma build_scenario_witness :
  let p0 := constructor (plain_host 0 1793624000000) None in
  exists p2 out ev,
    stop (plain_host 3500 0) 1 true (fst (start (plain_host 1000 0) 1 "build" p0))
      = (p2, inr tt)
    /\ written (plain_host 9000 1793624040123) p2 = Some out
    /\ length (traceEvents out) = 2%nat
    /\ traceEvents out !! 0%nat = Some JNull
    /\ traceEvents out !! 1%nat = Some ev
    /\ json_get "name" ev = Some (JStr "build")
    /\ json_get "ph" ev = Some (JStr "X")
    /\ json_get "state" ev = Some (JStr "succeeded").
Proof.
  intros p0.
  apply (build_scenario (plain_host 0 1793624000000) (plain_host 1000 0)
           (plain_host 3500 0) (plain_host 9000 1793624040123) None).
  reflexivity.
Defined.

(** C4 as stated fails: in that scenario [traceEvents[0]] is [null], which
    has no [name], [ph] or [state]. *)
Lemma build_scenario_first_event_is_null :
  let p0 := constructor (plain_host 0 1793624000000) None in
  let p1 := fst (start (plain_host 1000 0) 1 "build" p0) in
  let p2 := fst (stop (plain_host 3500 0) 1 true p1) in
  exists out,
    snd (start (plain_host 1000 0) 1 "build" p0) = inr tt
    /\ snd (stop (plain_host 3500 0) 1 true p1) = inr tt
    /\ written (plain_host 9000 1793624040123) p2 = Some out
    /\ traceEvents out !! 0%nat = Some JNull
    /\ json_get "name" JNull ≠ Some (JStr "build")
    /\ json_get "ph" JNull ≠ Some (JStr "X")
    /\ json_get "state" JNull ≠ Some (JStr "succeeded").
Proof.
  intros p0 p1 p2. eexists. repeat split; try reflexivity; discriminate.
Qed.

(** * C5: the document handed to [outputJsonSync] *)

(** C5, as amended: the document has exactly the keys [traceEvents],
    [displayTimeUnit] (["ms"]) and [otherData] (a source label and the ISO 8601
    start and end time stamps of the session), in that order.  Each element of
    [traceEvents] is either [null], at an index no task id was started with,
    or an entry object with [name], [ph] (["X"]), [ts] (the start time in
    microseconds), [pid] and [tid] (the task id, which is the element's
    index); the entry has a [dur] exactly when its state is no longer
    ["running"]. *)
Theorem output_document_shape (hw : Host) (p : Profiler) :
  reachable p ->
  exists out evs,
    written hw p = Some out
    /\ file_data out
       = JObj [ ("traceEvents", JArr evs);
                ("displayTimeUnit", JStr "ms");
                ("otherData",
                 JObj [ ("source", JStr "just-tasks profiler");
                        ("startTime", JStr (toJSON (startTime p)));
                        ("endTime", JStr (toJSON (Date_now hw))) ]) ]
    /\ is_iso8601 (toJSON (startTime p)) = true
    /\ is_iso8601 (toJSON (Date_now hw)) = true
    /\ forall (j : nat) (v : json), evs !! j = Some v ->
         (v = JNull /\ array_get (Z.of_nat j) (entries p) = None)
         \/ exists e,
              array_get (Z.of_nat j) (entries p) = Some e
              /\ v = entry_to_json e
              /\ json_get "name" v = Some (JStr (ProfileEntry.name e))
              /\ json_get "ph" v = Some (JStr "X")
              /\ json_get "ts" v
                 = Some (JNum (hrtimeToMicroSeconds (ProfileEntry.startTime e)))
              /\ json_get "pid" v = Some (JNum (inject_Z (ProfileEntry.pid e)))
              /\ json_get "tid" v = Some (JNum (inject_Z (Z.of_nat j)))
              /\ json_get "dur" v = JNum <$> ProfileEntry.dur e
              /\ (json_get "dur" v = None <-> ProfileEntry.state e = running).
Proof.
  intros Hreach. apply reachable_entries_ok in Hreach as [_ Hok].
  eexists _, _. split; [reflexivity|]. split; [reflexivity|].
  split; [apply toJSON_iso8601|]. split; [apply toJSON_iso8601|].
  intros j v Hv.
  apply (items_lookup entry_to_json (entries p)) in Hv as [_ ->].
  destruct (array_get (Z.of_nat j) (entries p)) as [e|] eqn:Hget; [right | by left].
  destruct (Hok _ _ Hget) as [(Hid & Htid & Hts & Hrun) _].
  pose proof (entry_to_json_fields e) as H. cbn zeta in H.
  destruct H as (Hname & Hph & Hts' & Hpid & Htid' & Hdur & _).
  exists e. split; [reflexivity|]. split; [reflexivity|].
  split; [exact Hname|]. split; [exact Hph|].
  split; [by rewrite Hts', Hts|]. split; [exact Hpid|].
  split; [by rewrite Htid', Htid|]. split; [exact Hdur|].
  rewrite Hdur, <- Hrun. destruct (ProfileEntry.dur e); cbn; split; congruence.
Qed.

Lemma output_document_shape_witness :
  let p := fst (start (plain_host 1000 0) 1 "build"
                  (constructor (plain_host 0 1793624000000) None)) in
  exists out evs,
    written (plain_host 9000 1793624040123) p = Some out
    /\ file_data out
       = JObj [ ("traceEvents", JArr evs);
                ("displayTimeUnit", JStr "ms");
                ("otherData",
                 JObj [ ("source", JStr "just-tasks profiler");
                        ("startTime", JStr "2026-11-02T12:53:20.000Z");
                        ("endTime", JStr "2026-11-02T12:54:00.123Z") ]) ].
Proof.
  intros p.
  destruct (output_document_shape (plain_host 9000 1793624040123) p)
    as (out & evs & Hout & Hdata & _).
  { apply reach_start, reach_new. }
  exists out, evs. split; [exact Hout | exact Hdata].
Defined.

(** C5 as stated fails: after [start(1, "build")] alone, [traceEvents] is
    [[null, entry]]; its first element is not an entry object, and the entry,
    still running, has no [dur]. *)
Lemma traceEvents_null_and_no_dur :
  let p := fst (start (plain_host 1000 0) 1 "build"
                  (constructor (plain_host 0 1793624000000) None)) in
  exists out ev,
    written (plain_host 9000 1793624040123) p = Some out
    /\ traceEvents out = [JNull; ev]
    /\ json_keys JNull = []
    /\ json_keys ev
       = ["name"; "ph"; "ts"; "pid"; "tid"; "cwd"; "id"; "state"; "startTime"]
    /\ json_get "dur" ev = None.
Proof. intros p. eexists _, _. repeat split. Qed.

(** * C6: where [write] puts the file *)

(** C6: [write] stamps the end time and hands [outputJsonSync] the path
    [path.join(outputFolder, fileName)], where [fileName] is
    [just-tasks-Profile-], a stamp, then [.json].  The stamp is the end time's
    ISO 8601 [toJSON] string with its dashes and colons taken out and
    everything else kept in order: the year, month, day, [T], hours, minutes,
    seconds, [.], milliseconds and [Z].  [outputFolder] is the constructor's
    argument, or the current working directory when the constructor got none,
    and no [start] or [stop] changes it. *)
Theorem write_file_location (h : Host) (p : Profiler) :
  (exists p' out stamp,
     write h p = (p', inr out)
     /\ endTime p' = Some (Date_now h)
     /\ file_path out
        = path_join (outputFolder p) ("just-tasks-Profile-" ++ stamp ++ ".json")%string
     /\ is_iso8601 (toJSON (Date_now h)) = true
     /\ list_ascii_of_string stamp
        = filter (fun c => is_separator c = false)
            (list_ascii_of_string (toJSON (Date_now h)))
     /\ Forall (fun c => c ≠ "-"%char /\ c ≠ ":"%char) (list_ascii_of_string stamp)
     /\ let '(y, m, d) := civil_from_days (Date_now h / 86400000) in
        let ms := Date_now h mod 86400000 in
        stamp
        = ((if ((0 <=? y) && (y <=? 9999))%Z then pad 4 y
            else (if (y <? 0)%Z then EmptyString else "+") ++ pad 6 (Z.abs y))
           ++ pad 2 m ++ pad 2 d ++ "T"
           ++ pad 2 (ms / 3600000)%Z ++ pad 2 (ms / 60000 mod 60)%Z
           ++ pad 2 (ms / 1000 mod 60)%Z
           ++ "." ++ pad 3 (ms mod 1000)%Z ++ "Z")%string)
  /\ (forall h0, outputFolder (constructor h0 None) = process_cwd h0)
  /\ (forall h0 folder, folder ≠ EmptyString ->
        outputFolder (constructor h0 (Some folder)) = folder)
  /\ (forall h' id name, outputFolder (fst (start h' id name p)) = outputFolder p)
  /\ (forall h' id success, outputFolder (fst (stop h' id success p)) = outputFolder p).
Proof.
  split; [|split; [|split; [|split]]].
  - rewrite write_eq. eexists _, _, (strip_separators (toJSON (Date_now h))).
    split; [reflexivity|]. split; [reflexivity|]. split; [reflexivity|].
    split; [apply toJSON_iso8601|]. split; [apply strip_separators_filter|].
    split; [|apply strip_separators_toJSON].
    rewrite strip_separators_filter. apply Forall_forall. intros c Hc.
    apply list_elem_of_filter in Hc as [Hc _]. unfold is_separator in Hc.
    split; intros ->; discriminate Hc.
  - reflexivity.
  - intros h0 folder Hne. cbn.
    destruct (String.eqb_spec folder EmptyString); [contradiction | reflexivity].
  - intros h' id name. rewrite start_eq.
    destruct (array_get id (entries p)); [reflexivity|].
    destruct (manifest_name h'); reflexivity.
  - intros h' id success. rewrite stop_eq.
    destruct (array_get id (entries p)); reflexivity.
Qed.

Lemma write_file_location_witness :
  let p := constructor (plain_host 0 1793624000000) (Some "out") in
  file_path <$> written (plain_host 9000 1793624040123) p
  = Some (path_join "out" "just-tasks-Profile-20261102T125400.123Z.json").
Proof.
  intros p.
  destruct (write_file_location (plain_host 9000 1793624040123) p)
    as [(p' & out & stamp & Hwrite & _ & Hpath & _ & _ & _ & Hstamp) (_ & Hfolder & _)].
  unfold written. rewrite Hwrite. cbn [snd fmap option_fmap option_map].
  rewrite Hpath. unfold p.
  rewrite (Hfolder (plain_host 0 1793624000000) "out") by discriminate.
  vm_compute in Hstamp. rewrite Hstamp. reflexivity.
Defined.

(** The same location, computed: no output folder, end time 2026-11-02
    12:54:00.123 UTC. *)
Example write_file_location_example :
  file_path <$> written (plain_host 9000 1793624040123)
                  (constructor (plain_host 0 1793624000000) None)
  = Some (path_join "/repo" "just-tasks-Profile-20261102T125400.123Z.json").
Proof. reflexivity. Qed.

(** * C7: start(2, "lint"); write() *)

(** C7: after [start(2, "lint")] and [write()] on a new profiler, with no
    [stop], the output holds the entry of id 2 at [traceEvents[2]]; its state
    is ["running"] and it has no [dur] key. *)
Theorem lint_scenario (h0 h1 hw : Host) (folder : option string) (p1 : Profiler) :
  start h1 2 "lint" (constructor h0 folder) = (p1, inr tt) ->
  exists out ev,
    written hw p1 = Some out
    /\ traceEvents out !! 2%nat = Some ev
    /\ json_get "id" ev = Some (JNum (inject_Z 2))
    /\ json_get "tid" ev = Some (JNum (inject_Z 2))
    /\ json_get "name" ev = Some (JStr "lint")
    /\ json_get "state" ev = Some (JStr "running")
    /\ json_get "dur" ev = None
    /\ "dur" ∉ json_keys ev.
Proof.
  intros Hstart. apply start_returns in Hstart as (_ & packageName & _ & ->).
  set (e1 := new_entry h1 2 "lint" packageName).
  destruct (written_eq hw (update_entries (array_set 2 e1) (constructor h0 folder)))
    as (out & Hout & Hev).
  exists out, (entry_to_json e1). split; [exact Hout|]. rewrite Hev.
  split.
  - apply items_lookup. split; [done|].
    cbn [entries update_entries]. change (Z.of_nat 2) with 2.
    by rewrite array_get_set_eq.
  - pose proof (entry_to_json_fields e1) as H. cbn zeta in H.
    destruct H as (Hname & _ & _ & _ & Htid & Hdur & Hid & _ & _ & Hstate & _).
    repeat (split; [assumption|]).
    unfold e1. destruct packageName; cbn; intros Hin;
      repeat (apply elem_of_cons in Hin as [Hin|Hin]; [discriminate Hin|]);
      by apply elem_of_nil in Hin.
Qed.

Lemma lint_scenario_witness :
  let p0 := constructor (plain_host 0 1793624000000) None in
  exists out ev,
    written (plain_host 9000 1793624040123) (fst (start (plain_host 1000 0) 2 "lint" p0))
      = Some out
    /\ traceEvents out !! 2%nat = Some ev
    /\ json_get "id" ev = Some (JNum (inject_Z 2))
    /\ json_get "tid" ev = Some (JNum (inject_Z 2))
    /\ json_get "name" ev = Some (JStr "lint")
    /\ json_get "state" ev = Some (JStr "running")
    /\ json_get "dur" ev = None
    /\ "dur" ∉ json_keys ev.
Proof.
  intros p0.
  apply (lint_scenario (plain_host 0 1793624000000) (plain_host 1000 0)
           (plain_host 9000 1793624040123) None).
  reflexivity.
Defined.

(** * C8: the array behind [traceEvents] *)

Lemma array_length_max (keys : list Z) :
  keys ≠ [] ->
  Forall (fun k => is_array_index k = true) keys ->
  exists m, m ∈ keys /\ (forall k, k ∈ keys -> k <= m) /\ array_length keys = m + 1.
Proof.
  induction keys as [|k keys IH] using rev_ind; [done|].
  intros _ Hall. apply Forall_app in Hall as [Hall Hk].
  apply Forall_inv in Hk. cbn beta in Hk.
  pose proof (array_length_snoc keys k) as Hsnoc. rewrite Hk in Hsnoc.
  assert (0 <= k) as Hk0 by (unfold is_array_index in Hk; lia).
  destruct keys as [|k0 keys0].
  - exists k. split; [constructor|]. split.
    + intros k' Hin. apply list_elem_of_singleton in Hin. lia.
    + rewrite Hsnoc. cbn. lia.
  - destruct (IH ltac:(done) Hall) as (m & Hin & Hmax & Hlen).
    rewrite Hlen in Hsnoc. destruct (decide (m <= k)) as [Hle|Hgt].
    + exists k. split; [apply elem_of_app; right; constructor|]. split; [|lia].
      intros k' Hk'. apply elem_of_app in Hk' as [Hk'|Hk'].
      * specialize (Hmax k' Hk'). lia.
      * apply list_elem_of_singleton in Hk'. lia.
    + exists m. split; [apply elem_of_app; by left|]. split; [|lia].
      intros k' Hk'. apply elem_of_app in Hk' as [Hk'|Hk'].
      * by apply Hmax.
      * apply list_elem_of_singleton in Hk'. lia.
Qed.

(** C8, as amended: after a sequence of calls that all returned, on a new
    profiler, with at least one [start] and every started id an array index,
    and a [write()] that returned, the [traceEvents] it wrote has (greatest
    started id) + 1 elements; the element at an index is [null] exactly when
    no task was started with that index as id; every other element carries
    [id], [cwd], [state] and [startTime], and carries [packageName] only when
    the manifest read by its [start] gave one (an [undefined] package name is
    left out of the document).  Nothing is said of a [write()] that throws,
    as it does when the array is too long for [JSON.stringify]. *)
Theorem traceEvents_layout (h0 hw : Host) (folder : option string)
    (calls : list (Host * Call)) (p p' : Profiler) (sink : Sink) :
  run calls (constructor h0 folder) = (p, inr tt) ->
  started_ids calls ≠ [] ->
  Forall (fun id => is_array_index id = true) (started_ids calls) ->
  write_file sink hw p = (p', inr tt) ->
  exists out m,
    written hw p = Some out
    /\ sink out = inr tt
    /\ m ∈ started_ids calls
    /\ (forall id, id ∈ started_ids calls -> id <= m)
    /\ Z.of_nat (length (traceEvents out)) = m + 1
    /\ (forall j : nat,
          traceEvents out !! j = Some JNull
          <-> Z.of_nat j <= m /\ Z.of_nat j ∉ started_ids calls)
    /\ forall (j : nat) (v : json),
         traceEvents out !! j = Some v -> v ≠ JNull ->
         exists e h name packageName,
           (h, Start (Z.of_nat j) name) ∈ calls
           /\ manifest_name h = inr packageName
           /\ v = entry_to_json e
           /\ json_get "id" v = Some (JNum (inject_Z (Z.of_nat j)))
           /\ json_get "cwd" v = Some (JStr (process_cwd h))
           /\ json_get "state" v = Some (JStr (State_to_string (ProfileEntry.state e)))
           /\ json_get "startTime" v
              = Some (JArr [ JNum (inject_Z (fst (process_hrtime h)));
                             JNum (inject_Z (snd (process_hrtime h))) ])
           /\ json_get "packageName" v = packageName.
Proof.
  intros Hrun Hne Hidx Hwrite.
  destruct (run_tracks calls (constructor h0 folder) p eq_refl Hrun) as (Hdom & Hlen & _ & Hent).
  destruct (array_length_max _ Hne Hidx) as (m & Hin & Hmax & Hm).
  destruct (write_file_returns sink hw p p' Hwrite) as (out & Hout & Hsink & Hev).
  exists out, m. split; [exact Hout|]. split; [exact Hsink|].
  split; [exact Hin|]. split; [exact Hmax|].
  rewrite Hev, items_length, Hlen, Hm.
  assert (0 <= m) as Hm0.
  { rewrite Forall_forall in Hidx. specialize (Hidx m Hin).
    unfold is_array_index in Hidx. lia. }
  split; [lia|]. split.
  - intros j. rewrite items_lookup, Hlen, Hm, <- Hdom. split.
    + intros [Hlt Hv]. split; [lia|]. intros [e He]. by rewrite He in Hv.
    + intros [Hle Hnone]. split; [lia|].
      destruct (array_get (Z.of_nat j) (entries p)) as [e|]; [|reflexivity].
      exfalso. eauto.
  - intros j v Hv Hnull. apply items_lookup in Hv as [_ ->].
    destruct (array_get (Z.of_nat j) (entries p)) as [e|] eqn:Hget; [|done].
    destruct (Hent _ e Hget) as (_ & _ & h & name & packageName & Hcall & Hmanifest & He).
    pose proof (entry_to_json_fields e) as H. cbn zeta in H.
    destruct H as (_ & _ & _ & _ & _ & _ & Hid & Hcwd & Hpn & Hstate & Hstart).
    exists e, h, name, packageName.
    split; [exact Hcall|]. split; [exact Hmanifest|]. split; [reflexivity|].
    split; [by rewrite Hid, He|]. split; [by rewrite Hcwd, He|].
    split; [exact Hstate|]. split; [by rewrite Hstart, He|]. by rewrite Hpn, He.
Qed.

Lemma traceEvents_layout_witness :
  let calls := [ (plain_host 1000 0, Start 1 "build");
                 (named_host 2000 0, Start 3 "test");
                 (plain_host 3500 0, Stop 1 true) ] in
  let p := fst (run calls (constructor (plain_host 0 1793624000000) None)) in
  exists out,
    written (plain_host 9000 1793624040123) p = Some out
    /\ bounded_sink 1000 out = inr tt
    /\ Z.of_nat (length (traceEvents out)) = 3 + 1
    /\ traceEvents out !! 0%nat = Some JNull
    /\ traceEvents out !! 2%nat = Some JNull.
Proof.
  intros calls p.
  destruct (traceEvents_layout (plain_host 0 1793624000000)
              (plain_host 9000 1793624040123) None calls p
              (set_endTime 1793624040123 p) (bounded_sink 1000))
    as (out & m & Hout & Hsink & Hin & Hmax & Hlen & Hnull & _).
  { reflexivity. }
  { discriminate. }
  { repeat constructor. }
  { reflexivity. }
  assert (m = 3) as ->.
  { specialize (Hmax 3 ltac:(cbn; repeat constructor)).
    cbn in Hin.
    repeat (apply elem_of_cons in Hin as [Hin|Hin]; [lia|]).
    by apply elem_of_nil in Hin. }
  exists out. split; [exact Hout|]. split; [exact Hsink|]. split; [exact Hlen|].
  assert (forall k : Z, k ≠ 1 -> k ≠ 3 -> k ∉ started_ids calls) as Hfree.
  { intros k H1 H3 Hk. cbn in Hk.
    repeat (apply elem_of_cons in Hk as [Hk|Hk]; [lia|]).
    by apply elem_of_nil in Hk. }
  split; apply Hnull; (split; [cbn; lia | apply Hfree; cbn; lia]).
Defined.

(** C8 as stated fails: when the working directory has no [package.json], the
    serialized trace event has no [packageName] key. *)
Lemma packageName_left_out :
  let calls := [ (plain_host 1000 0, Start 0 "build") ] in
  let p := fst (run calls (constructor (plain_host 0 1793624000000) None)) in
  exists out ev,
    snd (run calls (constructor (plain_host 0 1793624000000) None)) = inr tt
    /\ written (plain_host 9000 1793624040123) p = Some out
    /\ traceEvents out = [ev]
    /\ json_get "packageName" ev = None
    /\ json_keys ev
       = ["name"; "ph"; "ts"; "pid"; "tid"; "cwd"; "id"; "state"; "startTime"].
Proof. intros calls p. eexists _, _. repeat split. Qed.

(** * C9: a manifest that is not JSON *)

(** C9: when [package.json] exists in the working directory and [JSON.parse]
    throws on its text, a [start(id, name)] that gets to the manifest ([id]
    has no entry yet) throws that same exception, records no entry for [id]
    and leaves the profiler as it was. *)
Theorem start_manifest_parse_error (h : Host) (id : Z) (name : string) (p : Profiler)
    (text : string) (e : Exn) :
  array_get id (entries p) = None ->
  existsSync h (path_join (process_cwd h) "package.json") = true ->
  readFileSync h (path_join (process_cwd h) "package.json") = inr text ->
  JSON_parse h text = inl e ->
  start h id name p = (p, inl e)
  /\ array_get id (entries (fst (start h id name p))) = None.
Proof.
  intros Hnone Hexists Hread Hparse.
  assert (start h id name p = (p, inl e)) as Heq.
  { rewrite start_eq, Hnone. unfold manifest_name.
    rewrite Hexists, Hread, Hparse. reflexivity. }
  rewrite Heq. split; [reflexivity | exact Hnone].
Qed.

Lemma start_manifest_parse_error_witness :
  let p0 := constructor (plain_host 0 0) None in
  let h := broken_manifest_host 1000 5 in
  start h 1 "build" p0 = (p0, inl SyntaxError)
  /\ array_get 1 (entries (fst (start h 1 "build" p0))) = None.
Proof.
  intros p0 h.
  apply (start_manifest_parse_error h 1 "build" p0 "{ name: " SyntaxError);
    reflexivity.
Defined.

(** * C10: stopping twice *)

Lemma stopped_stopped (h1 h2 : Host) (b1 b2 : bool) (e : ProfileEntry.t) :
  stopped h2 b2 (stopped h1 b1 e) = stopped h2 b2 e.
Proof. reflexivity. Qed.

Lemma mutate_entry_overwrite (id : Z) (c : ProfileEntry.t)
    (g : ProfileEntry.t -> ProfileEntry.t) (a : JsArray ProfileEntry.t) :
  mutate_entry id (fun _ => c) (mutate_entry id g a) = mutate_entry id (fun _ => c) a.
Proof.
  unfold mutate_entry; cbn [props len]. f_equal.
  apply (alter_alter_entry (fun _ => c) g).
Qed.

(** C10: a second [stop(id, success2)] on an id that was already stopped
    returns normally; the entry's state follows [success2], its [dur] is
    measured again from the start time stored by [start], and the profiler
    (hence what [write] emits) is the one a single [stop(id, success2)] would
    have produced. *)
Theorem stop_twice (h1 h2 : Host) (id : Z) (success1 success2 : bool)
    (p : Profiler) (entry : ProfileEntry.t) :
  array_get id (entries p) = Some entry ->
  exists p1 p2 e,
    stop h1 id success1 p = (p1, inr tt)
    /\ stop h2 id success2 p1 = (p2, inr tt)
    /\ array_get id (entries p2) = Some e
    /\ ProfileEntry.state e = (if success2 then succeeded else failed)
    /\ ProfileEntry.dur e
       = Some (hrtimeToMicroSeconds
                 (process_hrtime_since h2 (ProfileEntry.startTime entry)))
    /\ stop h2 id success2 p = (p2, inr tt)
    /\ forall h3, snd (write h3 p2) = snd (write h3 (fst (stop h2 id success2 p))).
Proof.
  intros Hget.
  assert (stop h1 id success1 p
          = (update_entries (mutate_entry id (fun _ => stopped h1 success1 entry)) p, inr tt))
    as H1 by (rewrite stop_eq, Hget; reflexivity).
  assert (stop h2 id success2 p
          = (update_entries (mutate_entry id (fun _ => stopped h2 success2 entry)) p, inr tt))
    as H2 by (rewrite stop_eq, Hget; reflexivity).
  eexists _, _, _. split; [exact H1|].
  assert (forall A B (x y : A) (r : B), x = y -> (x, r) = (y, r)) as Hpair
    by (intros; subst; reflexivity).
  split; [|split; [|split; [|split; [|split; [exact H2|]]]]].
  - rewrite stop_eq. cbn [entries update_entries].
    rewrite array_get_mutate_eq, Hget. cbn [fmap option_fmap option_map].
    apply Hpair. rewrite stopped_stopped.
    unfold update_entries; cbn [startTime outputFolder endTime entries].
    f_equal. apply mutate_entry_overwrite.
  - cbn [entries update_entries]. rewrite array_get_mutate_eq, Hget. reflexivity.
  - by destruct success2.
  - reflexivity.
  - intros h3. rewrite H2. reflexivity.
Qed.

Lemma stop_twice_witness :
  let p0 := constructor (plain_host 0 0) None in
  let p := fst (start (plain_host 1000 5) 1 "build" p0) in
  exists p1 p2 e,
    stop (plain_host 3500 6) 1 true p = (p1, inr tt)
    /\ stop (plain_host 9000 7) 1 false p1 = (p2, inr tt)
    /\ array_get 1 (entries p2) = Some e
    /\ ProfileEntry.state e = failed
    /\ ProfileEntry.dur e = Some (Qmake 8000 1000).
Proof.
  intros p0 p.
  destruct (stop_twice (plain_host 3500 6) (plain_host 9000 7) 1 true false p
              (new_entry (plain_host 1000 5) 1 "build" None) eq_refl)
    as (p1 & p2 & e & H1 & H2 & Hget & Hstate & Hdur & _).
  exists p1, p2, e. repeat split; assumption.
Defined.

(** * Further properties: exceptions *)

(** A [start] or [stop] that throws, whatever it throws (the protocol error,
    an [fs] error, a [SyntaxError] or a [TypeError] from the manifest), leaves
    the profiler exactly as it was. *)
Theorem throwing_call_changes_nothing (hc : Host * Call) (p : Profiler) (e : Exn) :
  snd (call hc p) = inl e -> fst (call hc p) = p.
Proof.
  destruct hc as [h [id name | id success]]; cbn [call].
  - rewrite start_eq. destruct (array_get id (entries p)); [reflexivity|].
    destruct (manifest_name h); [reflexivity | discriminate].
  - rewrite stop_eq. destruct (array_get id (entries p)); [discriminate | reflexivity].
Qed.

Lemma throwing_call_changes_nothing_witness :
  let p := fst (start (plain_host 1000 5) 1 "build" (constructor (plain_host 0 0) None)) in
  fst (call (broken_manifest_host 2000 6, Start 2 "lint") p) = p.
Proof.
  intros p.
  apply (throwing_call_changes_nothing (broken_manifest_host 2000 6, Start 2 "lint") p
           SyntaxError).
  reflexivity.
Defined.

(** When [package.json] holds the JSON value [null], [packageJson.name]
    throws a [TypeError]: [start] of a fresh id throws it and stores nothing. *)
Theorem start_null_manifest (h : Host) (id : Z) (name : string) (p : Profiler)
    (text : string) :
  array_get id (entries p) = None ->
  existsSync h (path_join (process_cwd h) "package.json") = true ->
  readFileSync h (path_join (process_cwd h) "package.json") = inr text ->
  JSON_parse h text = inr JNull ->
  start h id name p = (p, inl TypeError).
Proof.
  intros Hnone Hexists Hread Hparse.
  rewrite start_eq, Hnone. unfold manifest_name.
  rewrite Hexists, Hread, Hparse. reflexivity.
Qed.

Lemma start_null_manifest_witness :
  let h := {| hrtime_ns := 1000; process_cwd := "/repo"; process_pid := 4242;
              Date_now := 5; existsSync := fun _ => true;
              readFileSync := fun _ => inr "null";
              JSON_parse := fun _ => inr JNull |} in
  let p0 := constructor (plain_host 0 0) None in
  start h 1 "build" p0 = (p0, inl TypeError).
Proof.
  intros h p0.
  apply (start_null_manifest h 1 "build" p0 "null"); reflexivity.
Defined.

(** * Further properties: the package name *)

(** When [package.json] parses to an object, [start] of a fresh id returns
    and the serialized entry carries under [packageName] whatever JSON value
    the object has under [name], string or not; without a [name] member the
    entry has no [packageName] key. *)
Theorem packageName_from_manifest (h : Host) (id : Z) (name : string) (p : Profiler)
    (text : string) (members : list (string * json)) :
  array_get id (entries p) = None ->
  existsSync h (path_join (process_cwd h) "package.json") = true ->
  readFileSync h (path_join (process_cwd h) "package.json") = inr text ->
  JSON_parse h text = inr (JObj members) ->
  exists p' e,
    start h id name p = (p', inr tt)
    /\ array_get id (entries p') = Some e
    /\ ProfileEntry.packageName e = assoc_get "name" members
    /\ json_get "packageName" (entry_to_json e) = assoc_get "name" members
    /\ (assoc_get "name" members = None -> "packageName" ∉ json_keys (entry_to_json e)).
Proof.
  intros Hnone Hexists Hread Hparse.
  assert (manifest_name h = inr (assoc_get "name" members)) as Hm.
  { unfold manifest_name. rewrite Hexists, Hread, Hparse. reflexivity. }
  eexists _, _. rewrite start_eq, Hnone, Hm.
  split; [reflexivity|]. cbn [entries update_entries]. rewrite array_get_set_eq.
  split; [reflexivity|]. split; [reflexivity|].
  pose proof (entry_to_json_fields (new_entry h id name (assoc_get "name" members))) as H.
  cbn zeta in H. destruct H as (_ & _ & _ & _ & _ & _ & _ & _ & Hpn & _).
  split; [exact Hpn|].
  intros Hno. rewrite Hno. cbn. intros Hin.
  repeat (apply elem_of_cons in Hin as [Hin|Hin]; [discriminate Hin|]).
  by apply elem_of_nil in Hin.
Qed.

Lemma packageName_from_manifest_witness :
  let h := {| hrtime_ns := 1000; process_cwd := "/repo"; process_pid := 4242;
              Date_now := 5; existsSync := fun _ => true;
              readFileSync := fun _ => inr "{}";
              JSON_parse := fun _ => inr (JObj [("version", JStr "1.0.0");
                                                ("name", JNum (inject_Z 7))]) |} in
  exists p' e,
    start h 1 "build" (constructor (plain_host 0 0) None) = (p', inr tt)
    /\ array_get 1 (entries p') = Some e
    /\ json_get "packageName" (entry_to_json e) = Some (JNum (inject_Z 7)).
Proof.
  intros h.
  destruct (packageName_from_manifest h 1 "build" (constructor (plain_host 0 0) None) "{}"
              [("version", JStr "1.0.0"); ("name", JNum (inject_Z 7))]
              eq_refl eq_refl eq_refl eq_refl)
    as (p' & e & Hstart & Hget & _ & Hpn & _).
  exists p', e. repeat split; assumption.
Defined.

(** * Further properties: what later calls keep *)

Lemma with_outcome_stopped (s : State) (d : option Q) (h : Host) (success : bool)
    (e : ProfileEntry.t) :
  with_outcome s d (stopped h success e) = with_outcome s d e.
Proof. reflexivity. Qed.

Lemma later_keeps_entry (p q : Profiler) (id : Z) (e : ProfileEntry.t) :
  later p q ->
  array_get id (entries p) = Some e ->
  exists e',
    array_get id (entries q) = Some e'
    /\ with_outcome (ProfileEntry.state e) (ProfileEntry.dur e) e' = e
    /\ len (entries p) <= len (entries q).
Proof.
  intros Hlater Hget.
  induction Hlater as [| h id' name q _ IH | h id' success q _ IH | h q _ IH].
  - exists e. split; [exact Hget|]. split; [by destruct e | lia].
  - destruct IH as (e' & Hq & Hsame & Hlen). rewrite start_eq.
    destruct (array_get id' (entries q)) eqn:Hid'; [eauto|].
    destruct (manifest_name h); [eauto|].
    exists e'. cbn [fst entries update_entries].
    assert (id' ≠ id) as Hne by congruence.
    rewrite array_get_set_ne by exact Hne. split; [exact Hq|]. split; [exact Hsame|].
    unfold array_set; cbn. destruct (is_array_index id'); lia.
  - destruct IH as (e' & Hq & Hsame & Hlen). rewrite stop_eq.
    destruct (array_get id' (entries q)) as [entry|] eqn:Hid'; [|eauto].
    cbn [fst entries update_entries]. destruct (decide (id' = id)) as [->|Hne].
    + rewrite array_get_mutate_eq, Hq. rewrite Hq in Hid'. injection Hid' as <-.
      eexists. split; [reflexivity|]. split; [|exact Hlen].
      by rewrite with_outcome_stopped.
    + rewrite array_get_mutate_ne by exact Hne. eauto.
  - exact IH.
Qed.

(** No method removes or replaces an entry.  Once an id has an entry, after
    any further calls it still has one with the same [name], [ts], [pid],
    [tid], [id], [cwd], [packageName] and [startTime] (only [state] and [dur]
    may differ); hence every later [start] of that id throws the
    duplicate-task error, and the array never gets shorter. *)
Theorem entry_is_kept (p q : Profiler) (id : Z) (e : ProfileEntry.t) :
  later p q ->
  array_get id (entries p) = Some e ->
  exists e',
    array_get id (entries q) = Some e'
    /\ with_outcome (ProfileEntry.state e) (ProfileEntry.dur e) e' = e
    /\ len (entries p) <= len (entries q)
    /\ forall h name, start h id name q = (q, inl DuplicateTaskError).
Proof.
  intros Hlater Hget.
  destruct (later_keeps_entry p q id e Hlater Hget) as (e' & Hq & Hsame & Hlen).
  exists e'. repeat (split; [assumption|]).
  intros h name. by rewrite start_eq, Hq.
Qed.

Lemma entry_is_kept_witness :
  let p := fst (start (named_host 1000 5) 1 "build" (constructor (plain_host 0 0) None)) in
  let q := fst (write (plain_host 9000 9)
                  (fst (stop (plain_host 3500 7) 1 false
                          (fst (start (plain_host 2000 6) 5 "test" p))))) in
  exists e',
    array_get 1 (entries q) = Some e'
    /\ ProfileEntry.name e' = "build"
    /\ ProfileEntry.packageName e' = Some (JStr "just-task")
    /\ start (plain_host 9500 10) 1 "again" q = (q, inl DuplicateTaskError).
Proof.
  intros p q.
  destruct (entry_is_kept p q 1 (new_entry (named_host 1000 5) 1 "build"
                                   (Some (JStr "just-task"))))
    as (e' & Hq & Hsame & _ & Hdup).
  { apply later_write, later_stop, later_start, later_refl. }
  { reflexivity. }
  exists e'. split; [exact Hq|].
  split; [exact (f_equal ProfileEntry.name Hsame)|].
  split; [exact (f_equal ProfileEntry.packageName Hsame) | apply Hdup].
Defined.

Lemma later_keeps_session (p q : Profiler) :
  later p q -> outputFolder q = outputFolder p /\ startTime q = startTime p.
Proof.
  induction 1 as [| h id name q _ IH | h id success q _ IH | h q _ IH].
  - done.
  - rewrite start_eq. destruct (array_get id (entries q)); [exact IH|].
    destruct (manifest_name h); exact IH.
  - rewrite stop_eq. destruct (array_get id (entries q)); exact IH.
  - exact IH.
Qed.

(** The output directory and the session start are fixed by the constructor.
    Whatever calls follow and whatever the host looks like when [write] runs
    (in particular, whatever its working directory is by then), the file goes
    to the folder given to the constructor, or to the working directory the
    process had at construction when none was given, and
    [otherData.startTime] is the construction time. *)
Theorem location_fixed_at_construction (h0 hw : Host) (folder : option string)
    (p : Profiler) :
  later (constructor h0 folder) p ->
  exists out other,
    written hw p = Some out
    /\ file_path out
       = path_join (outputFolder (constructor h0 folder))
           ("just-tasks-Profile-" ++ strip_separators (toJSON (Date_now hw)) ++ ".json")%string
    /\ (folder = None ->
        file_path out
        = path_join (process_cwd h0)
            ("just-tasks-Profile-" ++ strip_separators (toJSON (Date_now hw)) ++ ".json")%string)
    /\ json_get "otherData" (file_data out) = Some other
    /\ json_get "startTime" other = Some (JStr (toJSON (Date_now h0))).
Proof.
  intros Hlater. apply later_keeps_session in Hlater as [Hfolder Hstart].
  unfold written. rewrite write_eq. cbn [snd].
  eexists _, _. split; [reflexivity|]. cbn [file_path file_data].
  rewrite Hfolder. split; [reflexivity|]. split; [by intros ->|].
  split; [reflexivity|]. cbn. by rewrite Hstart.
Qed.

Lemma location_fixed_at_construction_witness :
  let h0 := plain_host 0 1793624000000 in
  let moved := {| hrtime_ns := 9000; process_cwd := "/elsewhere"; process_pid := 4242;
                  Date_now := 1793624040123; existsSync := fun _ => false;
                  readFileSync := fun _ => inl (SystemError "ENOENT");
                  JSON_parse := fun _ => inl SyntaxError |} in
  let p := fst (start moved 1 "build" (constructor h0 None)) in
  file_path <$> written moved p
  = Some (path_join "/repo" "just-tasks-Profile-20261102T125400.123Z.json").
Proof.
  intros h0 moved p.
  destruct (location_fixed_at_construction h0 moved None p)
    as (out & other & Hout & _ & Hpath & _).
  { apply later_start, later_refl. }
  rewrite Hout. cbn [fmap option_fmap option_map]. f_equal. exact (Hpath eq_refl).
Defined.

(** [write] is not a final step: it only stamps [endTime].  After it, every
    [start] and [stop] returns or throws as it would have without the
    [write], with the same effect on the entries, and a second [write] emits
    the same [traceEvents] again. *)
Theorem write_keeps_recording (h1 : Host) (p : Profiler) :
  let p1 := fst (write h1 p) in
  endTime p1 = Some (Date_now h1)
  /\ entries p1 = entries p
  /\ (forall hc, snd (call hc p1) = snd (call hc p)
                 /\ entries (fst (call hc p1)) = entries (fst (call hc p)))
  /\ forall h2, traceEvents <$> written h2 p1 = traceEvents <$> written h2 p.
Proof.
  cbn zeta. rewrite write_eq. cbn [fst].
  split; [reflexivity|]. split; [reflexivity|]. split; [|reflexivity].
  intros [h [id name | id success]]; cbn [call].
  - rewrite !start_eq. cbn [entries set_endTime].
    destruct (array_get id (entries p)); [done|]. destruct (manifest_name h); done.
  - rewrite !stop_eq. cbn [entries set_endTime].
    destruct (array_get id (entries p)); done.
Qed.

(** * Further properties: the calling protocol *)

Lemma returns_run_protocol (calls : list (Host * Call)) (p : Profiler) (seen : list Z) :
  (forall k, is_Some (array_get k (entries p)) <-> k ∈ seen) ->
  returns (run calls p) = protocol_ok seen calls.
Proof.
  revert p seen. induction calls as [|[h [id name | id success]] calls IH];
    intros p seen Hdom; [reflexivity| |].
  - rewrite run_cons. cbn [call protocol_ok]. rewrite start_eq.
    destruct (array_get id (entries p)) as [e|] eqn:Hget.
    + rewrite bool_decide_eq_true_2 by (apply Hdom; eauto). reflexivity.
    + assert (id ∉ seen) as Hfresh.
      { intros Hin. apply Hdom in Hin as [e He]. congruence. }
      rewrite bool_decide_eq_false_2 by exact Hfresh.
      unfold manifest_readable. destruct (manifest_name h) as [e|packageName];
        [reflexivity|].
      cbn [negb andb]. apply IH. intros k. cbn [entries update_entries].
      rewrite elem_of_cons, <- Hdom. destruct (decide (id = k)) as [->|Hne].
      * rewrite array_get_set_eq. split; eauto.
      * rewrite array_get_set_ne by exact Hne. split; [by right|].
        intros [Heq|H]; [congruence | exact H].
  - rewrite run_cons. cbn [call protocol_ok]. rewrite stop_eq.
    destruct (array_get id (entries p)) as [entry|] eqn:Hget.
    + rewrite bool_decide_eq_true_2 by (apply Hdom; eauto).
      cbn [andb]. apply IH. intros k. cbn [entries update_entries].
      rewrite <- Hdom. destruct (decide (id = k)) as [->|Hne].
      * rewrite array_get_mutate_eq, Hget. split; eauto.
      * by rewrite array_get_mutate_ne.
    + rewrite bool_decide_eq_false_2; [reflexivity|].
      intros Hin. apply Hdom in Hin as [e He]. congruence.
Qed.

(** On a new profiler, a sequence of [start] and [stop] calls runs to its end
    without an exception exactly when it keeps the protocol: no id is started
    twice, every [start] finds a manifest it can read (or none), and every
    [stop] names an id started earlier. *)
Theorem run_returns_iff_protocol (h0 : Host) (folder : option string)
    (calls : list (Host * Call)) :
  returns (run calls (constructor h0 folder)) = protocol_ok [] calls.
Proof.
  apply returns_run_protocol. intros k. unfold array_get; cbn.
  rewrite lookup_empty. split; [by intros [? ?] | by intros ?%elem_of_nil].
Qed.

(** * Further properties: the emitted events *)

Lemma reachable_len_bound (p : Profiler) : reachable p -> len (entries p) <= 2^32 - 1.
Proof.
  induction 1 as [h folder | h id name p _ IH | h id success p _ IH | h p _ IH].
  - done.
  - rewrite start_eq. destruct (array_get id (entries p)); [exact IH|].
    destruct (manifest_name h); [exact IH|].
    cbn. destruct (is_array_index id) eqn:Hidx; [|exact IH].
    unfold is_array_index in Hidx. lia.
  - rewrite stop_eq. destruct (array_get id (entries p)); exact IH.
  - exact IH.
Qed.

(** Only array indices reach the file.  Whatever was called on the profiler,
    the element at position [j] of [traceEvents] is [null] or the entry whose
    [id] is [j]; an entry stored under an id that is not an array index
    (negative, or [2^32 - 1] and above) is never written. *)
Theorem only_array_indices_are_written (hw : Host) (p : Profiler) :
  reachable p ->
  exists out,
    written hw p = Some out
    /\ Z.of_nat (length (traceEvents out)) <= 2^32 - 1
    /\ forall (j : nat) (v : json) (id : Z),
         traceEvents out !! j = Some v ->
         json_get "id" v = Some (JNum (inject_Z id)) ->
         id = Z.of_nat j /\ is_array_index id = true.
Proof.
  intros Hreach. pose proof (reachable_len_bound p Hreach) as Hbound.
  apply reachable_entries_ok in Hreach as [Hlen0 Hok].
  destruct (written_eq hw p) as (out & Hout & Hev).
  exists out. split; [exact Hout|]. rewrite Hev, items_length.
  split; [lia|].
  intros j v id Hv Hid. apply items_lookup in Hv as [Hlt ->].
  destruct (array_get (Z.of_nat j) (entries p)) as [e|] eqn:Hget; [|discriminate].
  destruct (Hok _ e Hget) as [(He & _) _].
  pose proof (entry_to_json_fields e) as H. cbn zeta in H.
  destruct H as (_ & _ & _ & _ & _ & _ & Hjid & _).
  rewrite Hjid, He in Hid. injection Hid as <-.
  split; [reflexivity|]. unfold is_array_index. lia.
Qed.

Lemma only_array_indices_are_written_witness :
  let p := fst (run [ (plain_host 1000 0, Start (2^32 - 1) "huge");
                      (plain_host 2000 0, Start 1 "build");
                      (plain_host 3000 0, Stop (2^32 - 1) true) ]
                  (constructor (plain_host 0 0) None)) in
  exists out,
    written (plain_host 9000 9) p = Some out
    /\ is_Some (array_get (2^32 - 1) (entries p))
    /\ forall (j : nat) (v : json),
         traceEvents out !! j = Some v ->
         json_get "id" v ≠ Some (JNum (inject_Z (2^32 - 1))).
Proof.
  intros p.
  destruct (only_array_indices_are_written (plain_host 9000 9) p)
    as (out & Hout & _ & Hids).
  { apply run_reachable, reach_new. }
  exists out. split; [exact Hout|]. split; [by eexists|].
  intros j v Hv Hid. destruct (Hids j v _ Hv Hid) as [_ Hidx]. discriminate Hidx.
Defined.

(** In a sequence of calls that all returned, on a new profiler, the written
    event of a started array-index id shows the outcome of the last
    [stop] of that id, whatever came before it: ["succeeded"] or ["failed"]
    with a [dur], or ["running"] without [dur] when the id was never
    stopped. *)
Theorem event_shows_last_stop (h0 hw : Host) (folder : option string)
    (calls : list (Host * Call)) (p : Profiler) (id : Z) :
  run calls (constructor h0 folder) = (p, inr tt) ->
  id ∈ started_ids calls ->
  is_array_index id = true ->
  exists out ev,
    written hw p = Some out
    /\ traceEvents out !! Z.to_nat id = Some ev
    /\ json_get "state" ev
       = Some (JStr (State_to_string (last_state (stops_of id calls))))
    /\ (stops_of id calls = [] -> json_get "dur" ev = None)
    /\ (stops_of id calls ≠ [] -> exists d, json_get "dur" ev = Some (JNum d)).
Proof.
  intros Hrun Hstarted Hidx.
  destruct (run_tracks calls (constructor h0 folder) p eq_refl Hrun)
    as (Hdom & _ & _ & Hent).
  assert (reachable p) as Hreach.
  { change p with (fst (p, @inr Exn unit tt)). rewrite <- Hrun.
    apply run_reachable, reach_new. }
  apply reachable_entries_ok in Hreach as [_ Hok].
  apply Hdom in Hstarted as [e Hget].
  destruct (Hent id e Hget) as (Hstate & Hdur & _).
  destruct (Hok id e Hget) as [_ Hlt]. specialize (Hlt Hidx).
  assert (0 <= id) as Hid0 by (unfold is_array_index in Hidx; lia).
  destruct (written_eq hw p) as (out & Hout & Hev).
  exists out, (entry_to_json e). split; [exact Hout|]. rewrite Hev.
  pose proof (entry_to_json_fields e) as H. cbn zeta in H.
  destruct H as (_ & _ & _ & _ & _ & Hjdur & _ & _ & _ & Hjstate & _).
  split; [|split; [|split]].
  - apply items_lookup. rewrite Z2Nat.id by exact Hid0.
    split; [exact Hlt|]. by rewrite Hget.
  - by rewrite Hjstate, Hstate.
  - intros Hnil. apply Hdur in Hnil. by rewrite Hjdur, Hnil.
  - intros Hsome. rewrite Hjdur. destruct (ProfileEntry.dur e) as [d|]; [by eexists|].
    exfalso. apply Hsome, Hdur. reflexivity.
Qed.

Lemma event_shows_last_stop_witness :
  let calls := [ (plain_host 1000 0, Start 1 "build");
                 (plain_host 2000 0, Stop 1 false);
                 (plain_host 3000 0, Start 0 "lint");
                 (plain_host 4000 0, Stop 1 true) ] in
  let p := fst (run calls (constructor (plain_host 0 0) None)) in
  exists out ev,
    written (plain_host 9000 9) p = Some out
    /\ traceEvents out !! 1%nat = Some ev
    /\ json_get "state" ev = Some (JStr "succeeded").
Proof.
  intros calls p.
  destruct (event_shows_last_stop (plain_host 0 0) (plain_host 9000 9) None calls p 1)
    as (out & ev & Hout & Hev & Hstate & _).
  { reflexivity. }
  { cbn. repeat constructor. }
  { reflexivity. }
  exists out, ev. repeat split; assumption.
Defined.

(** * Further properties: as many events as tasks *)

Lemma run_started_NoDup (calls : list (Host * Call)) (p0 p : Profiler) :
  entries p0 = array_empty ->
  run calls p0 = (p, inr tt) ->
  NoDup (started_ids calls).
Proof.
  intros Hempty. revert p.
  induction calls as [|hc calls IH] using rev_ind; intros p Hrun; [constructor|].
  apply run_snoc in Hrun as (p1 & Hrun & Hcall).
  rewrite started_ids_snoc. destruct hc as [h [id name | id success]]; cbn [snd].
  - cbn in Hcall. apply start_returns in Hcall as (Hnone & _).
    destruct (run_tracks calls p0 p1 Hempty Hrun) as (Hdom & _).
    apply NoDup_app. split; [by eapply IH|]. split; [|apply NoDup_singleton].
    intros k Hk Hin. apply list_elem_of_singleton in Hin as ->.
    apply Hdom in Hk as [e He]. congruence.
  - rewrite app_nil_r. by eapply IH.
Qed.

Lemma count_events {A} (f : A -> json) (m : gmap Z A) (keys : list Z) :
  (forall x, is_null (f x) = false) ->
  length (filter (fun v => is_null v = false)
            (map (fun k => match m !! k with
                           | Some x => f x
                           | None => JNull
                           end) keys))
  = length (filter (fun k => is_Some (m !! k)) keys).
Proof.
  intros Hf. induction keys as [|k keys IH]; [reflexivity|].
  cbn [map]. destruct (m !! k) as [x|] eqn:Hk.
  - rewrite !filter_cons_True; [|by rewrite Hk|apply Hf]. cbn. by rewrite IH.
  - rewrite !filter_cons_False; [exact IH|by rewrite Hk; intros [? ?]|done].
Qed.

(** After a sequence of calls that all returned, on a new profiler, with
    every started id an array index, [traceEvents] holds as many entries
    (elements other than [null]) as there were [start] calls. *)
Theorem as_many_events_as_starts (h0 hw : Host) (folder : option string)
    (calls : list (Host * Call)) (p : Profiler) :
  run calls (constructor h0 folder) = (p, inr tt) ->
  Forall (fun id => is_array_index id = true) (started_ids calls) ->
  exists out,
    written hw p = Some out
    /\ length (filter (fun v => is_null v = false) (traceEvents out))
       = length (started_ids calls).
Proof.
  intros Hrun Hidx.
  destruct (run_tracks calls (constructor h0 folder) p eq_refl Hrun) as (Hdom & _).
  pose proof (run_started_NoDup calls (constructor h0 folder) p eq_refl Hrun) as Hnodup.
  assert (reachable p) as Hreach.
  { change p with (fst (p, @inr Exn unit tt)). rewrite <- Hrun.
    apply run_reachable, reach_new. }
  apply reachable_entries_ok in Hreach as [_ Hok].
  destruct (written_eq hw p) as (out & Hout & Hev).
  exists out. split; [exact Hout|]. rewrite Hev.
  cbn [json_items array_to_json]. rewrite count_events by (by intros []).
  apply Permutation_length, NoDup_Permutation.
  - apply NoDup_filter, NoDup_seqZ.
  - exact Hnodup.
  - intros k. rewrite list_elem_of_filter, elem_of_seqZ, <- Hdom. split; [tauto|].
    intros [e He]. split; [by eexists|].
    assert (is_array_index k = true) as Hk.
    { rewrite Forall_forall in Hidx. apply Hidx, Hdom. by eexists. }
    destruct (Hok k e He) as [_ Hlt]. specialize (Hlt Hk).
    unfold is_array_index in Hk. lia.
Qed.

Lemma as_many_events_as_starts_witness :
  let calls := [ (plain_host 1000 0, Start 4 "build");
                 (plain_host 2000 0, Start 1 "lint");
                 (plain_host 3000 0, Stop 4 true) ] in
  let p := fst (run calls (constructor (plain_host 0 0) None)) in
  exists out,
    written (plain_host 9000 9) p = Some out
    /\ length (traceEvents out) = 5%nat
    /\ length (filter (fun v => is_null v = false) (traceEvents out)) = 2%nat.
Proof.
  intros calls p.
  destruct (as_many_events_as_starts (plain_host 0 0) (plain_host 9000 9) None calls p)
    as (out & Hout & Hcount).
  { reflexivity. }
  { repeat constructor. }
  exists out. split; [exact Hout|]. split; [|exact Hcount].
  vm_compute in Hout. injection Hout as <-. reflexivity.
Defined.

(** * Further properties: time stamps of an event *)

Lemma stop_hosts_snoc (k : Z) (calls : list (Host * Call)) (hc : Host * Call) :
  stop_hosts k (calls ++ [hc])
  = stop_hosts k calls ++ match snd hc with
                          | Stop id _ => if decide (id = k) then [fst hc] else []
                          | Start _ _ => []
                          end.
Proof.
  unfold stop_hosts. rewrite omap_app. f_equal.
  destruct hc as [h [id name | id success]]; [reflexivity|].
  cbn. destruct (decide (id = k)); reflexivity.
Qed.

Lemma stop_hosts_length (k : Z) (calls : list (Host * Call)) :
  length (stop_hosts k calls) = length (stops_of k calls).
Proof.
  unfold stop_hosts, stops_of.
  induction calls as [|[h [id name | id success]] calls IH]; [reflexivity|exact IH|].
  cbn. destruct (decide (id = k)); cbn; by rewrite ?IH.
Qed.

Lemma run_dur_last_stop (calls : list (Host * Call)) (p0 p : Profiler) :
  entries p0 = array_empty ->
  run calls p0 = (p, inr tt) ->
  forall k e,
    array_get k (entries p) = Some e ->
    ProfileEntry.dur e
    = (fun h => hrtimeToMicroSeconds (process_hrtime_since h (ProfileEntry.startTime e)))
        <$> last (stop_hosts k calls).
Proof.
  intros Hempty. revert p.
  induction calls as [|hc calls IH] using rev_ind; intros p Hrun k e Hget.
  - injection Hrun as <-. rewrite Hempty in Hget.
    unfold array_get in Hget; cbn in Hget. by rewrite lookup_empty in Hget.
  - apply run_snoc in Hrun as (p1 & Hrun & Hcall).
    specialize (IH p1 Hrun). rewrite stop_hosts_snoc.
    destruct hc as [h [id name | id success]]; cbn [snd fst]; cbn in Hcall.
    + rewrite app_nil_r.
      apply start_returns in Hcall as (Hnone & packageName & _ & ->).
      cbn in Hget. destruct (decide (id = k)) as [->|Hne].
      * rewrite array_get_set_eq in Hget. injection Hget as <-.
        destruct (run_tracks calls p0 p1 Hempty Hrun) as (Hdom & _ & Hstops & _).
        assert (k ∉ started_ids calls) as Hfresh.
        { intros Hin. apply Hdom in Hin as [e He]. congruence. }
        pose proof (stop_hosts_length k calls) as Hlen.
        rewrite (Hstops k Hfresh) in Hlen.
        destruct (stop_hosts k calls); [reflexivity | discriminate].
      * rewrite array_get_set_ne in Hget by exact Hne. by apply IH.
    + apply stop_returns in Hcall as (entry & Hsome & ->).
      cbn in Hget. destruct (decide (id = k)) as [->|Hne].
      * rewrite array_get_mutate_eq, Hsome in Hget. injection Hget as <-.
        rewrite last_snoc. reflexivity.
      * rewrite array_get_mutate_ne in Hget by exact Hne.
        rewrite app_nil_r. by apply IH.
Qed.

(** Which interval [dur] measures.  In a sequence of calls that all returned,
    on a new profiler, the event of a stopped array-index id has for [ts]
    [hrtimeToMicroSeconds] of the clock reading taken by its [start], and for
    [dur] [hrtimeToMicroSeconds] of the reading [process.hrtime(startTime)]
    taken by the last [stop] of that id: a pair [[s, ns]] with
    [0 <= ns < 10^9] that totals exactly the nanoseconds between that [start]
    and that [stop]. *)
Theorem event_measures_last_stop (h0 hw hs : Host) (folder : option string)
    (calls : list (Host * Call)) (p : Profiler) (id : Z) :
  run calls (constructor h0 folder) = (p, inr tt) ->
  is_array_index id = true ->
  last (stop_hosts id calls) = Some hs ->
  exists out ev h name elapsed,
    written hw p = Some out
    /\ traceEvents out !! Z.to_nat id = Some ev
    /\ (h, Start id name) ∈ calls
    /\ json_get "startTime" ev
       = Some (JArr [ JNum (inject_Z (fst (process_hrtime h)));
                      JNum (inject_Z (snd (process_hrtime h))) ])
    /\ json_get "ts" ev = Some (JNum (hrtimeToMicroSeconds (process_hrtime h)))
    /\ json_get "dur" ev = Some (JNum (hrtimeToMicroSeconds elapsed))
    /\ elapsed = process_hrtime_since hs (process_hrtime h)
    /\ 0 <= snd elapsed < 10^9
    /\ fst elapsed * 10^9 + snd elapsed
       = Z.of_N (hrtime_ns hs) - Z.of_N (hrtime_ns h).
Proof.
  intros Hrun Hidx Hlast.
  destruct (run_tracks calls (constructor h0 folder) p eq_refl Hrun)
    as (Hdom & _ & Hstops & Hent).
  assert (id ∈ started_ids calls) as Hstarted.
  { destruct (decide (id ∈ started_ids calls)) as [H|H]; [exact H|].
    pose proof (stop_hosts_length id calls) as Hlen.
    rewrite (Hstops id H) in Hlen.
    destruct (stop_hosts id calls); [discriminate Hlast | discriminate Hlen]. }
  assert (reachable p) as Hreach.
  { change p with (fst (p, @inr Exn unit tt)). rewrite <- Hrun.
    apply run_reachable, reach_new. }
  apply reachable_entries_ok in Hreach as [_ Hok].
  apply Hdom in Hstarted as [e Hget].
  destruct (Hent id e Hget) as (_ & _ & h & name & packageName & Hin & _ & He).
  destruct (Hok id e Hget) as [_ Hlt]. specialize (Hlt Hidx).
  assert (0 <= id) as Hid0 by (unfold is_array_index in Hidx; lia).
  pose proof (run_dur_last_stop calls (constructor h0 folder) p eq_refl Hrun id e Hget)
    as Hdur.
  rewrite Hlast in Hdur. cbn [fmap option_fmap option_map] in Hdur.
  assert (ProfileEntry.startTime e = process_hrtime h) as Hstart
    by (rewrite He; reflexivity).
  assert (ProfileEntry.ts e = hrtimeToMicroSeconds (process_hrtime h)) as Hts
    by (rewrite He; reflexivity).
  rewrite Hstart in Hdur.
  destruct (written_eq hw p) as (out & Hout & Hev).
  exists out, (entry_to_json e), h, name, (process_hrtime_since hs (process_hrtime h)).
  split; [exact Hout|]. rewrite Hev.
  pose proof (entry_to_json_fields e) as H. cbn zeta in H.
  destruct H as (_ & _ & Hjts & _ & _ & Hjdur & _ & _ & _ & _ & Hjstart).
  split; [|split; [exact Hin|split; [|split; [|split; [|split; [reflexivity|]]]]]].
  - apply items_lookup. rewrite Z2Nat.id by exact Hid0.
    split; [exact Hlt|]. by rewrite Hget.
  - by rewrite Hjstart, Hstart.
  - by rewrite Hjts, Hts.
  - by rewrite Hjdur, Hdur.
  - pose proof (process_hrtime_total hs) as Hs.
    pose proof (process_hrtime_total h) as Hh.
    pose proof (Z.mod_pos_bound (Z.of_N (hrtime_ns hs)) (10^9) eq_refl) as Hms.
    pose proof (Z.mod_pos_bound (Z.of_N (hrtime_ns h)) (10^9) eq_refl) as Hmh.
    unfold process_hrtime_since. unfold process_hrtime in *. cbn [fst snd] in *.
    destruct (_ <? 0) eqn:Hneg; cbn [fst snd]; lia.
Qed.

Lemma event_measures_last_stop_witness :
  let calls := [ (plain_host 1999999000 0, Start 1 "build");
                 (plain_host 2000000000 0, Stop 1 false);
                 (plain_host 4000000500 0, Stop 1 true) ] in
  let p := fst (run calls (constructor (plain_host 0 0) None)) in
  exists out ev,
    written (plain_host 9000000000 9) p = Some out
    /\ traceEvents out !! 1%nat = Some ev
    /\ json_get "dur" ev = Some (JNum (hrtimeToMicroSeconds (2, 1500))).
Proof.
  intros calls p.
  destruct (event_measures_last_stop (plain_host 0 0) (plain_host 9000000000 9)
              (plain_host 4000000500 0) None calls p 1)
    as (out & ev & h & name & elapsed & Hout & Hev & Hin & _ & _ & Hdur & Helapsed & _).
  { reflexivity. }
  { reflexivity. }
  { reflexivity. }
  exists out, ev. split; [exact Hout|]. split; [exact Hev|].
  rewrite Hdur, Helapsed. cbn in Hin. apply elem_of_cons in Hin as [Hin|Hin].
  - injection Hin as ->. reflexivity.
  - repeat (apply elem_of_cons in Hin as [Hin|Hin]; [discriminate Hin|]).
    by apply elem_of_nil in Hin.
Defined.

(** * Further properties: the file name *)

Lemma civil_year_range (days : Z) :
  -719528 <= days <= 2932896 ->
  0 <= fst (fst (civil_from_days days)) <= 9999.
Proof.
  intros Hdays. unfold civil_from_days. cbn [fst].
  destruct (_ <? 10) eqn:Hmp; destruct (_ <=? 2) eqn:Hm;
    Z.div_mod_to_equations; lia.
Qed.

(** For an end time from 0000-01-01 to 9999-12-31 (UTC), the file name is
    [just-tasks-Profile-], twenty characters of the form
    [YYYYMMDDTHHmmss.sssZ], then [.json]: the period before the milliseconds
    is not removed. *)
Theorem file_name_shape (h : Host) (p : Profiler) :
  -62167219200000 <= Date_now h < 253402300800000 ->
  exists out stamp,
    written h p = Some out
    /\ file_path out
       = path_join (outputFolder p) ("just-tasks-Profile-" ++ stamp ++ ".json")%string
    /\ matches basic_stamp stamp = true
    /\ String.length stamp = 20%nat.
Proof.
  intros Hrange.
  exists (mkOutput
            (path_join (outputFolder p)
               ("just-tasks-Profile-" ++ strip_separators (toJSON (Date_now h)) ++ ".json")%string)
            (JObj [ ("traceEvents", array_to_json entry_to_json (entries p));
                    ("displayTimeUnit", JStr "ms");
                    ("otherData",
                     JObj [ ("source", JStr "just-tasks profiler");
                            ("startTime", JStr (toJSON (startTime p)));
                            ("endTime", JStr (toJSON (Date_now h))) ]) ])),
         (strip_separators (toJSON (Date_now h))).
  split; [reflexivity|]. split; [reflexivity|].
  pose proof (strip_separators_toJSON (Date_now h)) as Hstrip.
  pose proof (civil_year_range (Date_now h / 86400000)) as Hyear.
  destruct (civil_from_days (Date_now h / 86400000)) as [[y m] d].
  cbn [fst] in Hyear. cbn zeta in Hstrip. rewrite Hstrip.
  assert (0 <= y <= 9999) as Hy.
  { apply Hyear. split.
    - apply Z.div_le_lower_bound; lia.
    - apply Z.lt_succ_r, Z.div_lt_upper_bound; lia. }
  replace ((0 <=? y) && (y <=? 9999)) with true by lia.
  split.
  - cbv [pad String.append basic_stamp matches in_class].
    rewrite !digit_is_digit. reflexivity.
  - cbv [pad String.append String.length]. reflexivity.
Qed.

Lemma file_name_shape_witness :
  exists out,
    written (plain_host 9000 1793624040123) (constructor (plain_host 0 0) None) = Some out
    /\ file_path out = path_join "/repo" "just-tasks-Profile-20261102T125400.123Z.json".
Proof.
  destruct (file_name_shape (plain_host 9000 1793624040123)
              (constructor (plain_host 0 0) None))
    as (out & stamp & Hout & _).
  { cbn. lia. }
  exists out. split; [exact Hout|].
  vm_compute in Hout. injection Hout as <-. reflexivity.
Defined.
